(** * etl.py: Google Sheets -> PostgreSQL, a shallow embedding

    The program of [src/etl.py] is a run-to-completion batch job: it reads
    nine variables from the process environment, pulls one worksheet through
    gspread into a pandas DataFrame and writes the frame to one PostgreSQL
    table with [DataFrame.to_sql].

    The embedding is a state-and-exception monad over the process state (the
    environment, the heap of DataFrame objects, the database, and the trace
    of log calls and calls to external libraries).  The external libraries
    (json, google-auth, gspread, SQLAlchemy) are an interface, [Services];
    what the worksheet-to-records conversion and the bulk write do is not in
    [src/] and is modelled from the specification, in definitions whose
    comment says so. *)

From Stdlib Require Import ZArith Lia Ascii String.
From stdpp Require Import base option list strings gmap.

Local Open Scope string_scope.
Local Open Scope list_scope.
Local Open Scope Z_scope.

(** ** Python values the program handles *)

Module Py.

(** [str.strip()] removes ASCII white space at both ends. *)
Definition is_space (a : ascii) : bool :=
  bool_decide (a ∈ [" "; "009"; "010"; "011"; "012"; "013"]%char).

Fixpoint lstrip (s : string) : string :=
  match s with
  | String a s' => if is_space a then lstrip s' else s
  | EmptyString => EmptyString
  end.

Definition strip (s : string) : string :=
  String.rev (lstrip (String.rev (lstrip s))).

Definition digit_val (a : ascii) : option Z :=
  let n := Z.of_N (Ascii.N_of_ascii a) in
  if bool_decide (48 ≤ n ≤ 57) then Some (n - 48) else None.

(** The digits of a decimal literal: at least one digit, and single
    underscores allowed between two digits only. *)
Fixpoint digits (s : string) (acc : Z) (after_digit : bool) : option Z :=
  match s with
  | EmptyString => if after_digit then Some acc else None
  | String a s' =>
      match digit_val a with
      | Some d => digits s' (10 * acc + d) true
      | None =>
          if bool_decide (a = "_"%char) && after_digit
          then digits s' acc false
          else None
      end
  end.

(** [int(s)] for a [str] argument in base ten; [None] is [ValueError]. *)
Definition int (s : string) : option Z :=
  match strip s with
  | String "+" r => digits r 0 false
  | String "-" r => Z.opp <$> digits r 0 false
  | t => digits t 0 false
  end.

(** Truth value of a [str]: only the empty string is false. *)
Definition truthy (s : string) : bool :=
  match s with EmptyString => false | _ => true end.

(** An f-string is the concatenation of its literal and interpolated parts. *)
Definition fstring (parts : list string) : string := String.concat "" parts.

End Py.

(** ** Exceptions, log records and the trace of external calls *)

(** What the spreadsheet service can answer instead of a spreadsheet. *)
Inductive sheets_error : Type :=
  | RefreshError
  | APIError
  | SpreadsheetNotFound
  | WorksheetNotFound.

Inductive exn : Type :=
  | RuntimeError (msg : string)
  | JSONDecodeError
  | MalformedServiceAccount
  | SheetsError (what : sheets_error)
  | ArgumentError
  | OperationalError
  | ValueError (msg : string)
  | DataError
  | DanglingReference.

Inductive result (A : Type) : Type :=
  | Ok (a : A)
  | Raise (e : exn).
Arguments Ok {A} a.
Arguments Raise {A} e.

Inductive level : Type := INFO | WARNING.

Inductive log_arg : Type :=
  | AStr (s : string)
  | AInt (n : Z)
  | ANone.

Inductive coltype : Type := Numeric | Text.

Inductive event : Type :=
  | Log (lvl : level) (fmt : string) (args : list log_arg)
  | JsonLoads
  | ServiceAccountInfo (scopes : list string)
  | Authorize
  | OpenByKey (sheet_id : string)
  | OpenWorksheet (title : string)
  | GetAllRecords
  | CreateEngine (url : string)
  | DbConnect (url : string)
  | DbDropTable (table : string)
  | DbCreateTable (table : string) (schema : list (string * coltype))
  | DbInsert (table : string) (nrows : nat).

(** Calls that leave the process.  [CreateEngine] does not: SQLAlchemy
    engines connect on first use. *)
Definition is_network_call (e : event) : bool :=
  match e with
  | Authorize | OpenByKey _ | OpenWorksheet _ | GetAllRecords
  | DbConnect _ | DbDropTable _ | DbCreateTable _ _ | DbInsert _ _ => true
  | _ => false
  end.

Definition is_db_call (e : event) : bool :=
  match e with
  | DbConnect _ | DbDropTable _ | DbCreateTable _ _ | DbInsert _ _ => true
  | _ => false
  end.

(** ** Data model *)

(** A worksheet as the service stores it: rows of cells. *)
Definition grid : Type := list (list string).

(** A Python [dict] with [str] keys and values: insertion ordered, keys
    unique, a later assignment to a key replaces the value in place. *)
Definition record : Type := list (string * string).

Fixpoint dict_set (k v : string) (d : record) : record :=
  match d with
  | [] => [(k, v)]
  | (k', v') :: d' =>
      if decide (k = k') then (k, v) :: d' else (k', v') :: dict_set k v d'
  end.

Definition dict (pairs : list (string * string)) : record :=
  foldl (fun d kv => dict_set kv.1 kv.2 d) [] pairs.

Fixpoint dict_get (k : string) (d : record) : option string :=
  match d with
  | [] => None
  | (k', v) :: d' => if decide (k = k') then Some v else dict_get k d'
  end.

Definition dict_keys (d : record) : list string := d.*1.

(** A pandas DataFrame with the default index: column labels and rows of
    cells, [None] standing for NaN. *)
Record DataFrame : Type := {
  df_columns : list string;
  df_values : list (list (option string));
}.

Record Table : Type := {
  tbl_schema : list (string * coltype);
  tbl_rows : list (list (option string));
}.

Record Engine : Type := { engine_url : string }.

#[global] Instance coltype_eq_dec : EqDecision coltype.
Proof. solve_decision. Defined.
#[global] Instance sheets_error_eq_dec : EqDecision sheets_error.
Proof. solve_decision. Defined.
#[global] Instance exn_eq_dec : EqDecision exn.
Proof. solve_decision. Defined.
#[global] Instance DataFrame_eq_dec : EqDecision DataFrame.
Proof. solve_decision. Defined.
#[global] Instance Table_eq_dec : EqDecision Table.
Proof. solve_decision. Defined.

(** ** Process state and the monad of the program *)

Record State : Type := {
  environ : gmap string string;
  frames : list DataFrame;
  tables : gmap string Table;
  trace : list event;
}.

Definition M (A : Type) : Type := State -> result A * State.

#[global] Instance M_ret : MRet M := fun A a s => (Ok a, s).
#[global] Instance M_bind : MBind M := fun A B f m s =>
  match m s with
  | (Ok a, s') => f a s'
  | (Raise e, s') => (Raise e, s')
  end.

Definition raise {A : Type} (e : exn) : M A := fun s => (Raise e, s).

(** The state after some more events were observed. *)
Definition log_to (s : State) (evs : list event) : State :=
  {| environ := environ s; frames := frames s; tables := tables s;
     trace := trace s ++ evs |}.

Definition emit (e : event) : M unit := fun s => (Ok tt, log_to s [e]).

Definition getenv (key : string) : M (option string) := fun s =>
  (Ok (environ s !! key), s).

(** Allocation of a new DataFrame object; the reference is its index. *)
Definition new_frame (df : DataFrame) : M nat := fun s =>
  (Ok (length (frames s)),
   {| environ := environ s; frames := frames s ++ [df]; tables := tables s;
      trace := trace s |}).

Definition read_frame (r : nat) : M DataFrame := fun s =>
  match frames s !! r with
  | Some df => (Ok df, s)
  | None => (Raise DanglingReference, s)
  end.

Definition get_tables : M (gmap string Table) := fun s => (Ok (tables s), s).

Definition put_tables (t : gmap string Table) : M unit := fun s =>
  (Ok tt, {| environ := environ s; frames := frames s; tables := t;
             trace := trace s |}).

Definition logger_info (fmt : string) (args : list log_arg) : M unit :=
  emit (Log INFO fmt args).
Definition logger_warning (fmt : string) (args : list log_arg) : M unit :=
  emit (Log WARNING fmt args).

(** ** Config helpers (etl.py, lines 40-47) *)

Definition env (key : string) (default : option string) : M string :=
  val ← (o ← getenv key; mret (from_option Some default o));
  match val with
  | None =>
      raise (RuntimeError
               (Py.fstring ["Missing required environment variable: "; key]))
  | Some v => mret v
  end.

Definition build_pg_url (user password host port db : string) : string :=
  Py.fstring ["postgresql://"; user; ":"; password; "@"; host; ":"; port;
              "/"; db].

(** ** External collaborators

    The libraries the program calls, as an interface: what each call
    returns is decided outside the program.  [json_loads] is [json.loads]
    ([None]: the text is not well-formed JSON, [json.JSONDecodeError]);
    [from_service_account_info] builds credentials from the parsed key
    ([None]: the key lacks a required field); [open_by_key] is the
    spreadsheet service answering with the worksheets of a spreadsheet, by
    title; [create_engine] parses a database URL; [pg_connect] tells whether
    the server accepts a connection; [infer_coltype] and [cell_fits] are the
    load mechanism's column typing. *)
Class Services : Type := {
  json : Type;
  json_loads : string -> option json;
  from_service_account_info : json -> list string -> option string;
  open_by_key : string -> string -> sheets_error + gmap string grid;
  create_engine : string -> option Engine;
  pg_connect : Engine -> bool;
  infer_coltype : list (option string) -> coltype;
  cell_fits : coltype -> option string -> bool;
}.

(** ** pandas: frames built from records *)

Definition add_keys (cols : list string) (r : record) : list string :=
  foldl (fun cs k => if bool_decide (k ∈ cs) then cs else cs ++ [k])
        cols (dict_keys r).

(** [pd.DataFrame(records)] for a list of dicts: the columns are the keys in
    order of first appearance, a key a record lacks gives NaN. *)
Definition pd_DataFrame (records : list record) : DataFrame :=
  let cols := foldl add_keys [] records in
  {| df_columns := cols;
     df_values := (fun r => (fun c => dict_get c r) <$> cols) <$> records |}.

(** [df.empty]: some axis has length zero. *)
Definition df_empty (d : DataFrame) : bool :=
  bool_decide (df_values d = []) || bool_decide (df_columns d = []).

Definition df_shape (d : DataFrame) : Z * Z :=
  (Z.of_nat (length (df_values d)), Z.of_nat (length (df_columns d))).

(** ** gspread: rows to records *)

Definition pad (n : nat) (row : list string) : list string :=
  row ++ replicate (n - length row)%nat "".

(** Modelled from the spec: [Worksheet.get_all_records] of gspread is not in
    [src/].  "Retrieves all rows, treating the first row as the header
    (column names); subsequent rows are converted to records keyed by those
    headers.  Rows shorter than the header are padded with empty values";
    cell values stay strings.  On a duplicated header name the later column
    wins, as [dict(zip(keys, row))] does. *)
Definition get_all_records (ws : grid) : list record :=
  match ws with
  | [] => []
  | header :: rows =>
      (fun row => dict (zip header (pad (length header) row))) <$> rows
  end.

(** ** The bulk write *)

Section to_sql.
Context `{Services}.

Definition column (j : nat) (d : DataFrame) : list (option string) :=
  (fun row => default None (row !! j)) <$> df_values d.

(** The schema is a function of the whole frame. *)
Definition infer_schema (d : DataFrame) : list (string * coltype) :=
  imap (fun j c => (c, infer_coltype (column j d))) (df_columns d).

Definition row_fits (schema : list (string * coltype))
    (row : list (option string)) : bool :=
  bool_decide (length row = length schema)
  && forallb (fun p => cell_fits p.1.2 p.2) (zip schema row).

Definition batch_fits (t : Table) (cols : list string)
    (batch : list (list (option string))) : bool :=
  bool_decide ((tbl_schema t).*1 = cols) && forallb (row_fits (tbl_schema t)) batch.

(** Rows [i*c .. (i+1)*c) for [i = 0, 1, ..], as many as hold a row. *)
Definition batches {A : Type} (c : nat) (rows : list A) : list (list A) :=
  (fun i => take c (drop (i * c) rows)) <$> seq 0 ((length rows + c - 1) / c)%nat.

(** One round trip per batch; the first batch the table rejects aborts the
    write: that batch is not written, the batches before it stay. *)
Fixpoint insert_batches (table : string)
    (cols : list string) (bs : list (list (list (option string)))) : M unit :=
  match bs with
  | [] => mret tt
  | b :: bs' =>
      emit (DbInsert table (length b));;
      db ← get_tables;
      match db !! table with
      | Some t =>
          if batch_fits t cols b then
            put_tables (<[table := {| tbl_schema := tbl_schema t;
                                     tbl_rows := tbl_rows t ++ b |}]> db);;
            insert_batches table cols bs'
          else raise DataError
      | None => raise DataError
      end
  end.

Definition create_table (table : string) (schema : list (string * coltype))
    : M unit :=
  emit (DbCreateTable table schema);;
  db ← get_tables;
  put_tables (<[table := {| tbl_schema := schema; tbl_rows := [] |}]> db).

Definition drop_table (table : string) : M unit :=
  emit (DbDropTable table);;
  db ← get_tables;
  put_tables (delete table db).

(** Modelled from the spec: [DataFrame.to_sql] of pandas is not in [src/].
    "Opens a connection to the target database [...] and writes all rows to
    [table_name]: replace-if-exists: drop and recreate the table from the
    record set's inferred schema, then insert all rows"; "writes proceed in
    batches of [batch_size] rows per round-trip"; "the schema must be fixed
    before the first batch is sent"; it fails with a connection error when
    the database is unreachable, a schema conflict when the table exists
    under fail-if-exists, and a load error on a value the table rejects;
    then "a failure mid-batch may leave a partially loaded table under
    [replace-if-exists], since earlier batches already committed".
    [append] creates the table when it is absent and keeps it otherwise.
    With no batch size all rows go in one round trip; a batch size that is
    not positive is refused before the database is contacted. *)
Definition to_sql (df : nat) (table : string) (engine : Engine)
    (if_exists : string) (index : bool) (chunksize : option Z)
    (method : string) : M unit :=
  d ← read_frame df;
  (if bool_decide (if_exists ∈ ["fail"; "replace"; "append"]) then mret tt
   else raise (ValueError "if_exists"));;
  c ← match chunksize with
      | None => mret (length (df_values d))
      | Some n => if bool_decide (0 < n) then mret (Z.to_nat n)
                  else raise (ValueError "chunksize")
      end;
  emit (DbConnect (engine_url engine));;
  (if pg_connect engine then mret tt else raise OperationalError);;
  let schema := infer_schema d in
  db ← get_tables;
  match db !! table with
  | Some _ =>
      if bool_decide (if_exists = "fail") then raise (ValueError "Table exists")
      else if bool_decide (if_exists = "replace")
      then drop_table table;; create_table table schema
      else mret tt
  | None => create_table table schema
  end;;
  insert_batches table (df_columns d) (batches c (df_values d)).

End to_sql.

(** ** The program (etl.py, lines 50-132) *)

(** The local [scopes] of [read_worksheet]. *)
Definition sheet_scopes : list string :=
  ["https://www.googleapis.com/auth/spreadsheets";
   "https://www.googleapis.com/auth/drive"].

Section etl.
Context `{Services}.

Definition read_worksheet (sheet_id worksheet sa_json : string) : M nat :=
  logger_info
    "Authenticating to Google Sheets using inline service account JSON." [];;
  let scopes := sheet_scopes in
  creds_info ← (emit JsonLoads;;
                match json_loads sa_json with
                | Some j => mret j
                | None => raise JSONDecodeError
                end);
  creds ← (emit (ServiceAccountInfo scopes);;
           match from_service_account_info creds_info scopes with
           | Some c => mret c
           | None => raise MalformedServiceAccount
           end);
  gc ← (emit Authorize;; mret creds);

  logger_info "Opening spreadsheet %s (worksheet=%s)."
    [AStr sheet_id; AStr worksheet];;
  sh ← (emit (OpenByKey sheet_id);;
        match open_by_key gc sheet_id with
        | inr sh => mret sh
        | inl e => raise (SheetsError e)
        end);
  ws ← (emit (OpenWorksheet worksheet);;
        match sh !! worksheet with
        | Some ws => mret ws
        | None => raise (SheetsError WorksheetNotFound)
        end);

  logger_info "Fetching records from worksheet…" [];;
  records ← (emit GetAllRecords;; mret (get_all_records ws));
  df ← new_frame (pd_DataFrame records);

  d ← read_frame df;
  (if df_empty d
   then logger_warning "Worksheet is empty. Nothing to load." []
   else logger_info "Pulled %d rows × %d columns."
          [AInt (df_shape d).1; AInt (df_shape d).2]);;

  mret df.

Definition get_engine (pg_url : string) : M Engine :=
  logger_info "Creating SQLAlchemy engine." [];;
  emit (CreateEngine pg_url);;
  match create_engine pg_url with
  | Some e => mret e
  | None => raise ArgumentError
  end.

(** The defaults of the source ([if_exists="replace"], [chunksize=1000])
    are never used: the one caller passes both arguments. *)
Definition load_dataframe (df : nat) (engine : Engine) (table : string)
    (if_exists : string) (chunksize : option Z) : M unit :=
  d ← read_frame df;
  if df_empty d then
    logger_info "Skip loading: DataFrame is empty." [];;
    mret tt
  else
    logger_info
      "Loading DataFrame into table '%s' (if_exists=%s, chunksize=%s)…"
      [AStr table; AStr if_exists; from_option AInt ANone chunksize];;
    to_sql df table engine if_exists false chunksize "multi";;
    logger_info "Load completed." [].

(** Lines 122-125: the [try]/[except ValueError] around the conversion. *)
Definition parse_chunksize (pg_chunksize_str : string) : M (option Z) :=
  if Py.truthy pg_chunksize_str then
    match Py.int pg_chunksize_str with
    | Some n => mret (Some n)
    | None => raise (RuntimeError "PG_CHUNKSIZE must be an integer or empty.")
    end
  else mret None.

(** [main], with the function it calls at line 132 as a parameter. *)
Definition main_with
    (loader : nat -> Engine -> string -> string -> option Z -> M unit)
    : M unit :=
  sheet_id ← env "SHEET_ID" None;
  worksheet ← env "WORKSHEET" None;
  sa_json ← env "GOOGLE_SA_KEY_JSON" None;

  pg_user ← env "PG_USER" None;
  pg_password ← env "PG_PASSWORD" None;
  pg_host ← env "PG_HOST" None;
  pg_port ← env "PG_PORT" None;
  pg_db ← env "PG_DB" None;
  pg_table ← env "PG_TABLE" None;
  let pg_if_exists := "replace" in
  let pg_chunksize_str := "1000" in

  pg_chunksize ← parse_chunksize pg_chunksize_str;

  df ← read_worksheet sheet_id worksheet sa_json;

  engine ← get_engine (build_pg_url pg_user pg_password pg_host pg_port pg_db);
  loader df engine pg_table pg_if_exists pg_chunksize.

Definition main : M unit := main_with load_dataframe.

End etl.

(** The variables [main] reads, in the order it reads them. *)
Definition required_keys : list string :=
  ["SHEET_ID"; "WORKSHEET"; "GOOGLE_SA_KEY_JSON"; "PG_USER"; "PG_PASSWORD";
   "PG_HOST"; "PG_PORT"; "PG_DB"; "PG_TABLE"].

Definition missing_message (key : string) : string :=
  "Missing required environment variable: " +:+ key.

(** ** A concrete world for the examples

    Key texts are accepted when they open with a brace, every principal may
    read the one spreadsheet ["sheet-1"], any URL makes an engine and the
    server at host ["db"] is up.  Columns of integers are numeric. *)
Module Demo.

Definition all_int (vals : list (option string)) : bool :=
  forallb (fun v => match v with
                    | Some s => bool_decide (is_Some (Py.int s))
                    | None => true
                    end) vals.

Definition people : grid := [["id"; "name"]; ["1"; "Alice"]; ["2"; "Bob"]].
Definition header_only : grid := [["id"; "name"]].

#[local] Instance services : Services := {|
  json := string;
  json_loads := fun s =>
    match s with String "{" _ => Some s | _ => None end;
  from_service_account_info := fun j _ => Some j;
  open_by_key := fun _ sheet_id =>
    if bool_decide (sheet_id = "sheet-1")
    then inr {[ "people" := people; "blank" := header_only ]}
    else inl SpreadsheetNotFound;
  create_engine := fun url => Some {| engine_url := url |};
  pg_connect := fun e =>
    bool_decide (engine_url e = "postgresql://etl:secret@db:5432/warehouse");
  infer_coltype := fun vals => if all_int vals then Numeric else Text;
  cell_fits := fun ct v =>
    match ct with Numeric => all_int [v] | Text => true end;
|}.

Definition environment (worksheet : string) : gmap string string :=
  list_to_map
    [("SHEET_ID", "sheet-1"); ("WORKSHEET", worksheet);
     ("GOOGLE_SA_KEY_JSON", "{}");
     ("PG_USER", "etl"); ("PG_PASSWORD", "secret"); ("PG_HOST", "db");
     ("PG_PORT", "5432"); ("PG_DB", "warehouse"); ("PG_TABLE", "people")].

Definition start (worksheet : string) : State :=
  {| environ := environment worksheet; frames := []; tables := ∅;
     trace := [] |}.

Definition with_environ (e : gmap string string) : State :=
  {| environ := e; frames := []; tables := ∅; trace := [] |}.

(** A state in which the frame of the [people] worksheet is object 0 and
    the frame with no row is object 1. *)
Definition loaded : State :=
  {| environ := environment "people";
     frames := [pd_DataFrame (get_all_records people);
                pd_DataFrame (get_all_records header_only)];
     tables := ∅; trace := [] |}.

Definition warehouse : Engine :=
  {| engine_url := "postgresql://etl:secret@db:5432/warehouse" |}.

End Demo.

(** The character [c] occurs in [s]. *)
Fixpoint occurs (c : ascii) (s : string) : bool :=
  match s with
  | EmptyString => false
  | String a s' => bool_decide (a = c) || occurs c s'
  end.

(** ** A second world, in which things go wrong

    The empty JSON object is no service-account key, the spreadsheet
    ["locked"] is refused by the service, and a database URL with a blank
    in it makes no engine. *)
Module Faulty.

#[local] Instance services : Services := {|
  json := string;
  json_loads := fun s =>
    match s with String "{" _ => Some s | _ => None end;
  from_service_account_info := fun j _ =>
    if bool_decide (j = "{}") then None else Some j;
  open_by_key := fun _ sheet_id =>
    if bool_decide (sheet_id = "sheet-1")
    then inr {[ "people" := Demo.people ]}
    else if bool_decide (sheet_id = "locked") then inl APIError
    else inl SpreadsheetNotFound;
  create_engine := fun url =>
    if occurs " " url then None else Some {| engine_url := url |};
  pg_connect := fun _ => true;
  infer_coltype := fun _ => Text;
  cell_fits := fun _ _ => true;
|}.

Definition environment : gmap string string :=
  list_to_map
    [("SHEET_ID", "sheet-1"); ("WORKSHEET", "people");
     ("GOOGLE_SA_KEY_JSON", "{key}");
     ("PG_USER", "etl"); ("PG_PASSWORD", "my secret"); ("PG_HOST", "db");
     ("PG_PORT", "5432"); ("PG_DB", "warehouse"); ("PG_TABLE", "people")].

Definition start : State :=
  {| environ := environment; frames := []; tables := ∅; trace := [] |}.

End Faulty.

(** ** A third world, in which the database rejects a value

    Every column is text, and a text that holds the NUL character is
    rejected by the server. *)
Module Rejecting.

#[local] Instance services : Services := {|
  json := string;
  json_loads := fun s =>
    match s with String "{" _ => Some s | _ => None end;
  from_service_account_info := fun j _ => Some j;
  open_by_key := fun _ _ => inl SpreadsheetNotFound;
  create_engine := fun url => Some {| engine_url := url |};
  pg_connect := fun _ => true;
  infer_coltype := fun _ => Text;
  cell_fits := fun _ v =>
    match v with
    | Some s => negb (occurs "000" s)
    | None => true
    end;
|}.

(** Two notes, the second with a NUL in it. *)
Definition notes : DataFrame :=
  {| df_columns := ["note"];
     df_values := [[Some "a"]; [Some (String "000" "b")]] |}.

Definition start : State :=
  {| environ := ∅; frames := [notes]; tables := ∅; trace := [] |}.

End Rejecting.

(** ** Vocabulary of the properties *)

(** No run of [m] ends in the exception [e0]. *)
Definition never_raises {A} (e0 : exn) (m : M A) : Prop :=
  forall s, (m s).1 ≠ Raise e0.

(** The exception of line 125. *)
Definition chunksize_error : exn :=
  RuntimeError "PG_CHUNKSIZE must be an integer or empty.".

(** What [read_worksheet] has logged and called when the key text has
    just been handed to [json.loads]. *)
Definition up_to_parse : list event :=
  [Log INFO "Authenticating to Google Sheets using inline service account JSON." [];
   JsonLoads].

(** The events of a run of [read_worksheet] in which every call answers. *)
Definition up_to_fetch (sheet_id worksheet : string) : list event :=
  up_to_parse ++
  [ServiceAccountInfo sheet_scopes; Authorize;
   Log INFO "Opening spreadsheet %s (worksheet=%s)." [AStr sheet_id; AStr worksheet];
   OpenByKey sheet_id; OpenWorksheet worksheet;
   Log INFO "Fetching records from worksheet…" []; GetAllRecords].

(** The last log line of [read_worksheet], lines 69-72. *)
Definition summary (d : DataFrame) : event :=
  if df_empty d then Log WARNING "Worksheet is empty. Nothing to load." []
  else Log INFO "Pulled %d rows × %d columns."
         [AInt (df_shape d).1; AInt (df_shape d).2].

(** [s'] differs from [s] in the trace and in the one table at most. *)
Definition touches_only (table : string) (s s' : State) : Prop :=
  environ s' = environ s
  /\ frames s' = frames s
  /\ forall t, t ≠ table -> tables s' !! t = tables s !! t.





(** Every run of [m] takes a state to one related to it by [step]. *)
Definition keeps {A} (step : State -> State -> Prop) (m : M A) : Prop :=
  forall s, step s (m s).2.

(** From [s] to [s'] the environment and the database are the same, the
    DataFrame objects of [s] are still there, and no database call was
    made. *)
Definition no_db_effect (s s' : State) : Prop :=
  environ s' = environ s
  /\ tables s' = tables s
  /\ (exists fs, frames s' = frames s ++ fs)
  /\ exists evs, trace s' = trace s ++ evs /\ existsb is_db_call evs = false.

(** From [s] to [s'] the trace has only grown. *)
Definition trace_extends (s s' : State) : Prop :=
  exists evs, trace s' = trace s ++ evs.

(** The exceptions that come out of the bulk write. *)
Definition is_load_exn (e : exn) : bool :=
  match e with
  | ValueError _ | OperationalError | DataError | DanglingReference => true
  | _ => false
  end.

(** A run of [m] that ends in an exception that is not the bulk write's
    has made no database call and has left the database as it was. *)
Definition fails_quietly {A} (m : M A) : Prop :=
  forall s e, (m s).1 = Raise e -> is_load_exn e = false ->
              no_db_effect s (m s).2.

(** From [s] to [s'] the table named [t] is the same. *)
Definition same_table (t : string) (s s' : State) : Prop :=
  tables s' !! t = tables s !! t.

(** Two states that differ at most in environment variables other than
    the nine that [main] reads. *)
Definition cfg_eq (s1 s2 : State) : Prop :=
  frames s1 = frames s2
  /\ tables s1 = tables s2
  /\ trace s1 = trace s2
  /\ forall k, k ∈ required_keys -> environ s1 !! k = environ s2 !! k.

(** [m] cannot tell two such states apart. *)
Definition blind {A} (m : M A) : Prop :=
  forall s1 s2, cfg_eq s1 s2 ->
    (m s1).1 = (m s2).1 /\ cfg_eq (m s1).2 (m s2).2.

(** The state in which [main] calls the loader: the frame of the worksheet
    [ws] has been made and the engine for [pg_url] created. *)
Definition at_the_load (s : State) (sheet_id worksheet : string) (ws : grid)
    (pg_url : string) : State :=
  {| environ := environ s;
     frames := frames s ++ [pd_DataFrame (get_all_records ws)];
     tables := tables s;
     trace := trace s ++ up_to_fetch sheet_id worksheet
              ++ [summary (pd_DataFrame (get_all_records ws));
                  Log INFO "Creating SQLAlchemy engine." [];
                  CreateEngine pg_url] |}.

(** * Properties *)

(** ** [int] on some texts *)

Example int_1000 : Py.int "1000" = Some 1000.
Proof. reflexivity. Qed.

Example int_ws : Py.int " -1_0 " = Some (-10).
Proof. reflexivity. Qed.

Example int_bad : Py.int "1__0" = None.
Proof. reflexivity. Qed.

Example int_empty : Py.int "" = None.
Proof. reflexivity. Qed.

(** ** Running the monad *)

Lemma log_to_log_to s evs evs' : log_to (log_to s evs) evs' = log_to s (evs ++ evs').
Proof. unfold log_to; simpl. by rewrite <- (assoc_L (++)). Qed.

Lemma bind_ok {A B} (m : M A) (f : A -> M B) s a s' :
  m s = (Ok a, s') -> (m ≫= f) s = f a s'.
Proof. unfold mbind, M_bind. by intros ->. Qed.

Lemma bind_raise {A B} (m : M A) (f : A -> M B) s e s' :
  m s = (Raise e, s') -> (m ≫= f) s = (Raise e, s').
Proof. unfold mbind, M_bind. by intros ->. Qed.

Lemma bind_ext {A B} (m : M A) (f g : A -> M B) s :
  (forall a s', f a s' = g a s') -> (m ≫= f) s = (m ≫= g) s.
Proof. unfold mbind, M_bind. intros E. destruct (m s) as [[a|e] s']; auto. Qed.

Lemma env_eq key s :
  env key None s =
  match environ s !! key with
  | Some v => (Ok v, s)
  | None => (Raise (RuntimeError (missing_message key)), s)
  end.
Proof.
  unfold env, getenv, mbind, M_bind, mret, M_ret, raise. simpl.
  destruct (environ s !! key); reflexivity.
Qed.

(** ** The database URL *)

Lemma string_length_app (s1 s2 : string) :
  String.length (s1 +:+ s2) = (String.length s1 + String.length s2)%nat.
Proof.
  induction s1 as [|a s1 IH]; [reflexivity|].
  change (S (String.length (s1 +:+ s2)) = S (String.length s1 + String.length s2)).
  by rewrite IH.
Qed.

(** C10: [build_pg_url] returns the scheme followed by the five fields,
    each inserted verbatim between the fixed separators; nothing is
    escaped, quoted or validated, so the length is the sum of the lengths
    of the fields plus the seventeen fixed characters. *)
Theorem build_pg_url_verbatim (user password host port db : string) :
  build_pg_url user password host port db
  = "postgresql://" +:+ user +:+ ":" +:+ password +:+ "@" +:+ host +:+ ":"
    +:+ port +:+ "/" +:+ db
  /\ String.length (build_pg_url user password host port db)
     = (17 + String.length user + String.length password + String.length host
        + String.length port + String.length db)%nat.
Proof.
  split; [reflexivity|].
  unfold build_pg_url, Py.fstring, String.concat.
  rewrite !string_length_app. simpl. lia.
Qed.

(** A password made of URL-significant characters lands in the URL as is. *)
Example build_pg_url_unescaped :
  build_pg_url "etl" "p@ss:w/rd" "db" "5432" "warehouse"
  = "postgresql://etl:p@ss:w/rd@db:5432/warehouse".
Proof. reflexivity. Qed.

(** ** Configuration *)

Section configuration.
Context `{Services}.

Lemma env_bind {B} key (f : string -> M B) s :
  (env key None ≫= f) s =
  match environ s !! key with
  | Some v => f v s
  | None => (Raise (RuntimeError (missing_message key)), s)
  end.
Proof.
  unfold mbind at 1, M_bind at 1. rewrite env_eq.
  by destruct (environ s !! key).
Qed.

Lemma parse_chunksize_literal s : parse_chunksize "1000" s = (Ok (Some 1000), s).
Proof. reflexivity. Qed.

Lemma first_unset_spec (e : gmap string string) k :
  head (filter (fun k => e !! k = None) required_keys) = Some k ->
  k ∈ required_keys /\ e !! k = None.
Proof.
  intros Hk. apply head_Some_elem_of in Hk.
  by apply list_elem_of_filter in Hk as [? ?].
Qed.

Ltac first_unset :=
  unfold required_keys; rewrite ?filter_cons;
  repeat (case_decide; [congruence || reflexivity|]); congruence.

(** C1 (amended): a required key that is set is returned verbatim by [env],
    the empty string included; when a required key is unset, [main] stops
    with the "Missing required environment variable" error that names the
    first unset key in reading order (that very key when no other is
    unset), and the state is untouched: no event, so no network call. *)
Theorem missing_key_fails_first loader s key :
  key ∈ required_keys ->
  (forall v, environ s !! key = Some v -> env key None s = (Ok v, s))
  /\ (environ s !! key = None ->
      exists k,
        head (filter (fun k => environ s !! k = None) required_keys) = Some k
        /\ main_with loader s = (Raise (RuntimeError (missing_message k)), s)
        /\ ((forall k', k' ∈ required_keys -> k' ≠ key ->
                        is_Some (environ s !! k')) -> k = key)).
Proof.
  intros Hkey. split.
  { intros v Hv. by rewrite env_eq, Hv. }
  intros Hnone.
  assert (exists k,
    head (filter (fun k => environ s !! k = None) required_keys) = Some k
    /\ main_with loader s = (Raise (RuntimeError (missing_message k)), s))
    as (k & Hk & Hmain).
  { unfold main_with.
    repeat (rewrite env_bind;
            match goal with
            | |- context [environ s !! ?x] =>
                destruct (environ s !! x) eqn:?;
                [|exists x; split; [first_unset|reflexivity]]
            end).
    exfalso. unfold required_keys in Hkey.
    repeat (apply elem_of_cons in Hkey as [->|Hkey]; [congruence|]).
    by apply elem_of_nil in Hkey. }
  exists k. split; [done|]. split; [done|].
  intros Hothers. apply first_unset_spec in Hk as [Hin Hk].
  destruct (decide (k = key)) as [|Hne]; [done|].
  destruct (Hothers k Hin Hne) as [v Hv]. congruence.
Qed.


End configuration.

(** ** Which exceptions a computation can raise *)

Section never_raises.
Context `{Services} (e0 : exn).

Lemma never_bind {A B} (m : M A) (f : A -> M B) :
  never_raises e0 m -> (forall a, never_raises e0 (f a)) ->
  never_raises e0 (m ≫= f).
Proof.
  intros Hm Hf s. unfold mbind, M_bind. specialize (Hm s).
  destruct (m s) as [[a|e] s']; [apply Hf|].
  simpl in *. congruence.
Qed.

Lemma never_mret {A} (a : A) : never_raises e0 (mret a).
Proof. by intros s. Qed.

Lemma never_emit ev : never_raises e0 (emit ev).
Proof. by intros s. Qed.

Lemma never_raise {A} e : e ≠ e0 -> never_raises e0 (@raise A e).
Proof. intros Hne s. simpl. congruence. Qed.

Lemma never_get_tables : never_raises e0 get_tables.
Proof. by intros s. Qed.

Lemma never_put_tables t : never_raises e0 (put_tables t).
Proof. by intros s. Qed.

Lemma never_new_frame d : never_raises e0 (new_frame d).
Proof. by intros s. Qed.

Lemma never_read_frame r : e0 ≠ DanglingReference -> never_raises e0 (read_frame r).
Proof.
  intros Hne s. unfold read_frame. destruct (frames s !! r); simpl; congruence.
Qed.

Lemma never_env key :
  e0 ≠ RuntimeError (missing_message key) -> never_raises e0 (env key None).
Proof.
  intros Hne s. rewrite env_eq. destruct (environ s !! key); simpl; congruence.
Qed.

End never_raises.

Ltac never_raises_step :=
  first
    [ apply never_env; discriminate
    | apply never_bind; [|intros ?]
    | apply never_mret | apply never_emit | apply never_get_tables
    | apply never_put_tables | apply never_new_frame
    | apply never_read_frame; discriminate
    | apply never_raise; discriminate
    | match goal with
      | |- never_raises _ (match ?x with _ => _ end) => destruct x
      end ].

Section chunksize.
Context `{Services}.

Lemma never_insert_batches table cols bs :
  never_raises chunksize_error (insert_batches table cols bs).
Proof.
  induction bs as [|b bs IH]; simpl; [apply never_mret|].
  repeat never_raises_step; exact IH.
Qed.

Lemma never_to_sql df table engine if_exists index chunksize method :
  never_raises chunksize_error
    (to_sql df table engine if_exists index chunksize method).
Proof.
  unfold to_sql, create_table, drop_table.
  repeat first [apply never_insert_batches | never_raises_step].
Qed.

Lemma never_load_dataframe df engine table if_exists chunksize :
  never_raises chunksize_error (load_dataframe df engine table if_exists chunksize).
Proof.
  unfold load_dataframe, logger_info.
  repeat first [apply never_to_sql | never_raises_step].
Qed.

Lemma never_read_worksheet sheet_id worksheet sa_json :
  never_raises chunksize_error (read_worksheet sheet_id worksheet sa_json).
Proof.
  unfold read_worksheet, logger_info, logger_warning.
  repeat never_raises_step.
Qed.


End chunksize.

(** ** Records and frames *)

Lemma dict_set_fresh k v (d : record) :
  k ∉ d.*1 -> dict_set k v d = d ++ [(k, v)].
Proof.
  induction d as [|[k' v'] d IH]; intros Hk; simpl; [done|].
  rewrite fmap_cons in Hk. apply not_elem_of_cons in Hk as [Hne Hk].
  case_decide; [done|]. by rewrite IH.
Qed.

Lemma dict_app (acc l : list (string * string)) :
  NoDup (acc ++ l).*1 ->
  foldl (fun d kv => dict_set kv.1 kv.2 d) acc l = acc ++ l.
Proof.
  revert acc. induction l as [|[k v] l IH]; intros acc Hnd; simpl.
  { by rewrite app_nil_r. }
  assert (k ∉ acc.*1) as Hk.
  { rewrite fmap_app in Hnd. apply NoDup_app in Hnd as (_ & Hd & _).
    intros Hin. apply (Hd k Hin). rewrite fmap_cons. by left. }
  rewrite dict_set_fresh by done.
  rewrite IH; rewrite <- (assoc_L (++)); done.
Qed.

Lemma dict_NoDup (l : list (string * string)) : NoDup l.*1 -> dict l = l.
Proof. intros Hnd. unfold dict. by rewrite dict_app. Qed.

Lemma pad_length n row : (n ≤ length (pad n row))%nat.
Proof. unfold pad. rewrite length_app, length_replicate. lia. Qed.

Lemma pad_full n row : length row = n -> pad n row = row.
Proof.
  intros <-. unfold pad. by rewrite Nat.sub_diag, app_nil_r.
Qed.

Lemma dict_get_zip (header : list string) (vals : list string) :
  NoDup header -> (length header ≤ length vals)%nat ->
  (fun c => dict_get c (zip header vals)) <$> header
  = Some <$> take (length header) vals.
Proof.
  revert vals. induction header as [|c header IH]; intros vals Hnd Hlen; [done|].
  destruct vals as [|v vals]; simpl in Hlen; [lia|].
  apply NoDup_cons in Hnd as [Hc Hnd]. simpl.
  case_decide; [|done]. f_equal.
  rewrite <- IH by (done || lia).
  apply Forall_fmap_ext, Forall_forall. intros c' Hc'.
  case_decide; [|done]. by subst.
Qed.

Lemma add_keys_fresh (cols keys : list string) :
  NoDup (cols ++ keys) ->
  foldl (fun cs k => if bool_decide (k ∈ cs) then cs else cs ++ [k]) cols keys
  = cols ++ keys.
Proof.
  revert cols. induction keys as [|k keys IH]; intros cols Hnd; simpl.
  { by rewrite app_nil_r. }
  assert (k ∉ cols) as Hk.
  { apply NoDup_app in Hnd as (_ & Hd & _). intros Hin.
    apply (Hd k Hin). by left. }
  rewrite bool_decide_eq_false_2 by done.
  rewrite IH; rewrite <- (assoc_L (++)); done.
Qed.

Lemma add_keys_known (cols keys : list string) :
  keys ⊆ cols ->
  foldl (fun cs k => if bool_decide (k ∈ cs) then cs else cs ++ [k]) cols keys
  = cols.
Proof.
  induction keys as [|k keys IH]; intros Hsub; simpl; [done|].
  rewrite bool_decide_eq_true_2 by set_solver. apply IH. set_solver.
Qed.

Lemma columns_same_keys (header : list string) (records : list record) :
  NoDup header -> records ≠ [] ->
  Forall (fun r => dict_keys r = header) records ->
  foldl add_keys [] records = header.
Proof.
  intros Hnd Hne Hall. destruct records as [|r records]; [done|].
  apply Forall_cons in Hall as [Hr Hall]. simpl.
  unfold add_keys at 2. rewrite Hr, add_keys_fresh by done. simpl.
  clear Hne Hr. induction Hall as [|r' records Hr' _ IH]; simpl; [done|].
  unfold add_keys at 2. rewrite Hr', add_keys_known by done. exact IH.
Qed.

Lemma get_all_records_NoDup (header : list string) (rows : list (list string)) :
  NoDup header ->
  get_all_records (header :: rows)
  = (fun row => zip header (pad (length header) row)) <$> rows.
Proof.
  intros Hnd. simpl. apply Forall_fmap_ext, Forall_forall. intros row _.
  apply dict_NoDup. rewrite fst_zip; [done|apply pad_length].
Qed.

Lemma frame_of_rows (header : list string) (rows : list (list string)) :
  NoDup header -> rows ≠ [] ->
  pd_DataFrame (get_all_records (header :: rows))
  = {| df_columns := header;
       df_values := (fun row => Some <$> take (length header)
                                          (pad (length header) row)) <$> rows |}.
Proof.
  intros Hnd Hne. rewrite get_all_records_NoDup by done.
  unfold pd_DataFrame.
  rewrite (columns_same_keys header).
  - f_equal. rewrite <- list_fmap_compose.
    apply Forall_fmap_ext, Forall_forall. intros row _. simpl.
    apply dict_get_zip; [done|apply pad_length].
  - done.
  - by destruct rows.
  - apply Forall_fmap, Forall_forall. intros row _. simpl.
    unfold dict_keys. rewrite fst_zip; [done|apply pad_length].
Qed.

(** ** Extraction *)

Section extraction.
Context `{Services}.

Lemma read_worksheet_ok sheet_id worksheet sa_json j creds sh ws s :
  json_loads sa_json = Some j ->
  from_service_account_info j sheet_scopes = Some creds ->
  open_by_key creds sheet_id = inr sh ->
  sh !! worksheet = Some ws ->
  read_worksheet sheet_id worksheet sa_json s
  = (Ok (length (frames s)),
     {| environ := environ s;
        frames := frames s ++ [pd_DataFrame (get_all_records ws)];
        tables := tables s;
        trace := trace s ++ up_to_fetch sheet_id worksheet
                 ++ [summary (pd_DataFrame (get_all_records ws))] |}).
Proof.
  intros Hj Hc Ho Hw.
  unfold read_worksheet, logger_info, logger_warning, emit, new_frame,
    read_frame, raise, mbind, M_bind, mret, M_ret, log_to, summary.
  cbn [fst snd environ frames tables trace].
  rewrite Hj, Hc, Ho, Hw.
  rewrite list_lookup_middle by done.
  destruct (df_empty _); cbn [environ frames tables trace];
    do 2 f_equal; by rewrite <- !(assoc_L (++)).
Qed.

Lemma read_worksheet_malformed sheet_id worksheet sa_json s :
  json_loads sa_json = None ->
  read_worksheet sheet_id worksheet sa_json s
  = (Raise JSONDecodeError, log_to s up_to_parse).
Proof.
  intros Hj.
  unfold read_worksheet, logger_info, emit, raise, mbind, M_bind, mret, M_ret.
  rewrite Hj. by rewrite log_to_log_to.
Qed.

Ltac read_config Hall :=
  repeat match goal with
    | |- context [env ?k None ≫= _] =>
        let v := fresh "v" in let E := fresh "E" in
        destruct (Hall k) as [v E]; [unfold required_keys; set_solver|];
        rewrite env_bind, E
    end.

(** C5: a key text that [json.loads] rejects makes [read_worksheet] raise
    the decoding error after its first log line and the call to
    [json.loads] only; none of these events is a network call, the rest of
    the state is untouched, and a run of [main] that has read its nine
    variables ends in the same way, before authentication, before the
    spreadsheet is opened and before the loader is called. *)
Theorem malformed_key_fails_before_network sheet_id worksheet sa_json s :
  json_loads sa_json = None ->
  read_worksheet sheet_id worksheet sa_json s
  = (Raise JSONDecodeError, log_to s up_to_parse)
  /\ existsb is_network_call up_to_parse = false
  /\ forall loader,
      (forall k, k ∈ required_keys -> is_Some (environ s !! k)) ->
      environ s !! "GOOGLE_SA_KEY_JSON" = Some sa_json ->
      main_with loader s = (Raise JSONDecodeError, log_to s up_to_parse).
Proof.
  intros Hj. split; [by apply read_worksheet_malformed|]. split; [done|].
  intros loader Hall Hkey. unfold main_with.
  read_config Hall. cbv zeta.
  rewrite (bind_ok _ _ _ _ _ (parse_chunksize_literal _)).
  assert (v1 = sa_json) as -> by congruence.
  by rewrite (bind_raise _ _ _ _ _ (read_worksheet_malformed _ _ _ _ Hj)).
Qed.

(** C6: when the worksheet holds its header row and nothing else,
    [read_worksheet] returns normally a new frame with no row, and the last
    thing it does is to log the warning "Worksheet is empty. Nothing to
    load."; environment and database are untouched. *)
Theorem header_only_gives_empty_frame
    sheet_id worksheet sa_json j creds sh header s :
  json_loads sa_json = Some j ->
  from_service_account_info j sheet_scopes = Some creds ->
  open_by_key creds sheet_id = inr sh ->
  sh !! worksheet = Some [header] ->
  read_worksheet sheet_id worksheet sa_json s
  = (Ok (length (frames s)),
     {| environ := environ s;
        frames := frames s ++ [{| df_columns := []; df_values := [] |}];
        tables := tables s;
        trace := trace s ++ up_to_fetch sheet_id worksheet
                 ++ [Log WARNING "Worksheet is empty. Nothing to load." []] |}).
Proof.
  intros Hj Hc Ho Hw.
  by rewrite (read_worksheet_ok _ _ _ _ _ _ _ _ Hj Hc Ho Hw).
Qed.

(** C2: [read_worksheet] returns a new frame built from the records of the
    worksheet, one record and one frame row per data row.  With distinct
    header names each record pairs the header names, in order, with the
    cells of its row as they are (a row as long as the header gives exactly
    [zip header row]), and the frame has the header as its columns and the
    cells as its values.  The worksheet of the specification's example
    gives the two records of the example. *)
Theorem worksheet_rows_become_records
    sheet_id worksheet sa_json j creds sh header rows s :
  json_loads sa_json = Some j ->
  from_service_account_info j sheet_scopes = Some creds ->
  open_by_key creds sheet_id = inr sh ->
  sh !! worksheet = Some (header :: rows) ->
  let records := get_all_records (header :: rows) in
  (exists s',
      read_worksheet sheet_id worksheet sa_json s = (Ok (length (frames s)), s')
      /\ frames s' = frames s ++ [pd_DataFrame records])
  /\ length records = length rows
  /\ length (df_values (pd_DataFrame records)) = length rows
  /\ (NoDup header ->
      records = (fun row => zip header (pad (length header) row)) <$> rows
      /\ (forall i row, rows !! i = Some row -> length row = length header ->
            records !! i = Some (zip header row))
      /\ (rows ≠ [] ->
          pd_DataFrame records
          = {| df_columns := header;
               df_values := (fun row => Some <$> take (length header)
                                          (pad (length header) row)) <$> rows |}))
  /\ get_all_records [["id"; "name"]; ["1"; "Alice"]; ["2"; "Bob"]]
     = [[("id", "1"); ("name", "Alice")]; [("id", "2"); ("name", "Bob")]].
Proof.
  intros Hj Hc Ho Hw records. repeat split.
  - eexists. split; [by apply (read_worksheet_ok _ _ _ _ _ _ _ _ Hj Hc Ho Hw)|done].
  - unfold records. simpl. by rewrite length_fmap.
  - unfold records. simpl. by rewrite !length_fmap.
  - by apply get_all_records_NoDup.
  - intros i row Hrow Hlen. unfold records.
    rewrite get_all_records_NoDup by done.
    rewrite list_lookup_fmap, Hrow. simpl. by rewrite pad_full.
  - intros Hne. by apply frame_of_rows.
Qed.

End extraction.

(** ** The call of the loader *)

Section orchestration.
Context `{Services}.

Lemma get_engine_returns pg_url engine s :
  create_engine pg_url = Some engine ->
  get_engine pg_url s
  = (Ok engine,
     log_to s [Log INFO "Creating SQLAlchemy engine." []; CreateEngine pg_url]).
Proof.
  intros He. unfold get_engine, logger_info, emit, mbind, M_bind, mret, M_ret.
  rewrite He. by rewrite log_to_log_to.
Qed.

(** When the nine variables are set, the fetch goes through and the engine
    is made, a run of [main] is the call of its last line. *)
Lemma main_with_reaches_loader loader
    s sheet_id worksheet sa_json user password host port db table
    j creds sh ws engine :
  environ s !! "SHEET_ID" = Some sheet_id ->
  environ s !! "WORKSHEET" = Some worksheet ->
  environ s !! "GOOGLE_SA_KEY_JSON" = Some sa_json ->
  environ s !! "PG_USER" = Some user ->
  environ s !! "PG_PASSWORD" = Some password ->
  environ s !! "PG_HOST" = Some host ->
  environ s !! "PG_PORT" = Some port ->
  environ s !! "PG_DB" = Some db ->
  environ s !! "PG_TABLE" = Some table ->
  json_loads sa_json = Some j ->
  from_service_account_info j sheet_scopes = Some creds ->
  open_by_key creds sheet_id = inr sh ->
  sh !! worksheet = Some ws ->
  create_engine (build_pg_url user password host port db) = Some engine ->
  main_with loader s
  = loader (length (frames s)) engine table "replace" (Some 1000)
      (at_the_load s sheet_id worksheet ws
         (build_pg_url user password host port db)).
Proof.
  intros E1 E2 E3 E4 E5 E6 E7 E8 E9 Hj Hc Ho Hw He.
  unfold main_with.
  rewrite env_bind, E1, env_bind, E2, env_bind, E3, env_bind, E4, env_bind, E5,
    env_bind, E6, env_bind, E7, env_bind, E8, env_bind, E9.
  cbv zeta. rewrite (bind_ok _ _ _ _ _ (parse_chunksize_literal _)).
  rewrite (bind_ok _ _ _ _ _ (read_worksheet_ok _ _ _ _ _ _ _ s Hj Hc Ho Hw)).
  rewrite (bind_ok _ _ _ _ _ (get_engine_returns _ _ _ He)).
  f_equal. unfold at_the_load, log_to. cbn [environ frames tables trace].
  f_equal. by rewrite <- !(assoc_L (++)).
Qed.

Ltac run_config s :=
  unfold main_with;
  repeat (rewrite env_bind;
          match goal with
          | E : environ s !! ?k = _ |- context [environ s !! ?k] => rewrite E
          end).

(** A run of [main] either stops before its last line, in a way that does
    not depend on the function called there, or is the call of that
    function with the policy ["replace"] and the batch size [1000]. *)
Lemma main_with_stops_or_calls s :
  (exists e s', forall loader, main_with loader s = (Raise e, s'))
  \/ (exists df engine table s',
        forall loader,
          main_with loader s
          = loader df engine table "replace" (Some 1000) s').
Proof.
  destruct (environ s !! "SHEET_ID") as [sheet_id|] eqn:E1;
    [|left; eexists _, _; intros loader; by run_config s].
  destruct (environ s !! "WORKSHEET") as [worksheet|] eqn:E2;
    [|left; eexists _, _; intros loader; by run_config s].
  destruct (environ s !! "GOOGLE_SA_KEY_JSON") as [sa_json|] eqn:E3;
    [|left; eexists _, _; intros loader; by run_config s].
  destruct (environ s !! "PG_USER") as [user|] eqn:E4;
    [|left; eexists _, _; intros loader; by run_config s].
  destruct (environ s !! "PG_PASSWORD") as [password|] eqn:E5;
    [|left; eexists _, _; intros loader; by run_config s].
  destruct (environ s !! "PG_HOST") as [host|] eqn:E6;
    [|left; eexists _, _; intros loader; by run_config s].
  destruct (environ s !! "PG_PORT") as [port|] eqn:E7;
    [|left; eexists _, _; intros loader; by run_config s].
  destruct (environ s !! "PG_DB") as [db|] eqn:E8;
    [|left; eexists _, _; intros loader; by run_config s].
  destruct (environ s !! "PG_TABLE") as [table|] eqn:E9;
    [|left; eexists _, _; intros loader; by run_config s].
  destruct (read_worksheet sheet_id worksheet sa_json s)
    as [[df|e] st1] eqn:Hr.
  2: { left. exists e, st1. intros loader. run_config s. cbv zeta.
       rewrite (bind_ok _ _ _ _ _ (parse_chunksize_literal _)).
       by rewrite (bind_raise _ _ _ _ _ Hr). }
  destruct (get_engine (build_pg_url user password host port db) st1)
    as [[engine|e] st2] eqn:He.
  2: { left. exists e, st2. intros loader. run_config s. cbv zeta.
       rewrite (bind_ok _ _ _ _ _ (parse_chunksize_literal _)).
       rewrite (bind_ok _ _ _ _ _ Hr).
       by rewrite (bind_raise _ _ _ _ _ He). }
  right. exists df, engine, table, st2. intros loader. run_config s. cbv zeta.
  rewrite (bind_ok _ _ _ _ _ (parse_chunksize_literal _)).
  rewrite (bind_ok _ _ _ _ _ Hr).
  by rewrite (bind_ok _ _ _ _ _ He).
Qed.

(** C4: whatever the state, hence whatever the environment holds, [main]
    hands the function it calls at line 132 the existence policy
    ["replace"] and the batch size [1000].  Replacing that function by one
    that ignores the two arguments it is given and uses these constants
    changes no run.  A run either stops before line 132, in a way that does
    not depend on the function called there, or is the call of that function
    with ["replace"] and [1000].  And the call is made: when the nine
    variables are set, the fetch goes through and the engine is created,
    the run is the call of the function on the new frame, the engine, the
    table [PG_TABLE] names, ["replace"] and [1000]. *)
Theorem loader_arguments_are_constants
    (loader : nat -> Engine -> string -> string -> option Z -> M unit) s :
  main_with loader s
  = main_with (fun df engine table _ _ =>
                 loader df engine table "replace" (Some 1000)) s
  /\ ((exists e s', forall loader', main_with loader' s = (Raise e, s'))
      \/ (exists df engine table s',
            forall loader',
              main_with loader' s
              = loader' df engine table "replace" (Some 1000) s'))
  /\ forall sheet_id worksheet sa_json user password host port db table
            j creds sh ws engine,
      environ s !! "SHEET_ID" = Some sheet_id ->
      environ s !! "WORKSHEET" = Some worksheet ->
      environ s !! "GOOGLE_SA_KEY_JSON" = Some sa_json ->
      environ s !! "PG_USER" = Some user ->
      environ s !! "PG_PASSWORD" = Some password ->
      environ s !! "PG_HOST" = Some host ->
      environ s !! "PG_PORT" = Some port ->
      environ s !! "PG_DB" = Some db ->
      environ s !! "PG_TABLE" = Some table ->
      json_loads sa_json = Some j ->
      from_service_account_info j sheet_scopes = Some creds ->
      open_by_key creds sheet_id = inr sh ->
      sh !! worksheet = Some ws ->
      create_engine (build_pg_url user password host port db) = Some engine ->
      main_with loader s
      = loader (length (frames s)) engine table "replace" (Some 1000)
          (at_the_load s sheet_id worksheet ws
             (build_pg_url user password host port db)).
Proof.
  split; [|split].
  - unfold main_with.
    do 9 (apply bind_ext; intros ? ?).
    cbv zeta.
    by rewrite !(bind_ok _ _ _ _ _ (parse_chunksize_literal _)).
  - apply main_with_stops_or_calls.
  - intros. by eapply main_with_reaches_loader.
Qed.

(** C9: the batch-size text is the literal ["1000"]: [int] converts it to
    [1000], so lines 122-125 yield [1000] in every state without raising,
    and no run of [main] ends in the [RuntimeError] "PG_CHUNKSIZE must be an
    integer or empty.".  The value [main] computes is [1000] in every run:
    a callee that raised this very error on any other batch size would
    change no run, and when the nine variables are set, the fetch goes
    through and the engine is created, [main] is the call of
    [load_dataframe] with the batch size [1000]. *)
Theorem chunksize_error_unreachable s :
  Py.int "1000" = Some 1000
  /\ parse_chunksize "1000" s = (Ok (Some 1000), s)
  /\ (main s).1 ≠ Raise chunksize_error
  /\ (forall loader,
        main_with loader s
        = main_with (fun df engine table if_exists chunksize =>
                       if bool_decide (chunksize = Some 1000)
                       then loader df engine table if_exists chunksize
                       else raise chunksize_error) s)
  /\ forall sheet_id worksheet sa_json user password host port db table
            j creds sh ws engine,
      environ s !! "SHEET_ID" = Some sheet_id ->
      environ s !! "WORKSHEET" = Some worksheet ->
      environ s !! "GOOGLE_SA_KEY_JSON" = Some sa_json ->
      environ s !! "PG_USER" = Some user ->
      environ s !! "PG_PASSWORD" = Some password ->
      environ s !! "PG_HOST" = Some host ->
      environ s !! "PG_PORT" = Some port ->
      environ s !! "PG_DB" = Some db ->
      environ s !! "PG_TABLE" = Some table ->
      json_loads sa_json = Some j ->
      from_service_account_info j sheet_scopes = Some creds ->
      open_by_key creds sheet_id = inr sh ->
      sh !! worksheet = Some ws ->
      create_engine (build_pg_url user password host port db) = Some engine ->
      main s
      = load_dataframe (length (frames s)) engine table "replace" (Some 1000)
          (at_the_load s sheet_id worksheet ws
             (build_pg_url user password host port db)).
Proof.
  split; [reflexivity|]. split; [reflexivity|]. split; [|split].
  - revert s. change (never_raises chunksize_error main).
    unfold main, main_with, get_engine, logger_info.
    repeat first [ apply never_load_dataframe | apply never_read_worksheet
                 | never_raises_step ].
  - intros loader. unfold main_with.
    do 9 (apply bind_ext; intros ? ?).
    cbv zeta.
    rewrite !(bind_ok _ _ _ _ _ (parse_chunksize_literal _)).
    do 2 (apply bind_ext; intros ? ?).
    by rewrite bool_decide_eq_true_2.
  - intros. unfold main. by eapply main_with_reaches_loader.
Qed.

End orchestration.

(** ** Loading: the empty frame *)

Section load_empty.
Context `{Services}.

(** C3: on a frame with no row [load_dataframe] returns normally and the
    one thing it does is to log "Skip loading: DataFrame is empty.": no
    connection is opened, nothing is written, and environment, frames and
    database are as before. *)
Theorem load_empty_is_noop df engine table if_exists chunksize s d :
  frames s !! df = Some d ->
  df_values d = [] ->
  exists evs,
    load_dataframe df engine table if_exists chunksize s = (Ok tt, log_to s evs)
    /\ evs = [Log INFO "Skip loading: DataFrame is empty." []]
    /\ existsb is_db_call evs = false
    /\ tables (log_to s evs) = tables s.
Proof.
  intros Hd Hrows. eexists. split; [|done].
  unfold load_dataframe, read_frame, mbind, M_bind. rewrite Hd.
  unfold df_empty. by rewrite Hrows.
Qed.

End load_empty.

(** ** Loading: what a load may touch *)

Section frame.
Context `{Services} (table : string).

Lemma touches_refl s : touches_only table s s.
Proof. done. Qed.

Lemma touches_trans s1 s2 s3 :
  touches_only table s1 s2 -> touches_only table s2 s3 ->
  touches_only table s1 s3.
Proof.
  intros (E1 & F1 & T1) (E2 & F2 & T2). repeat split; [congruence..|].
  intros t Ht. by rewrite T2, T1.
Qed.

Lemma touches_bind {A B} (m : M A) (f : A -> M B) s :
  touches_only table s (m s).2 ->
  (forall a s', m s = (Ok a, s') -> touches_only table s' (f a s').2) ->
  touches_only table s ((m ≫= f) s).2.
Proof.
  intros Hm Hf. unfold mbind, M_bind.
  destruct (m s) as [[a|e] s'] eqn:E; [|exact Hm].
  eapply touches_trans; [exact Hm|]. by apply Hf.
Qed.

Lemma touches_emit e s : touches_only table s (emit e s).2.
Proof. done. Qed.

Lemma touches_put_tables (db : gmap string Table) s :
  (forall t, t ≠ table -> db !! t = tables s !! t) ->
  touches_only table s (put_tables db s).2.
Proof. done. Qed.

Lemma touches_read_frame r s : touches_only table s (read_frame r s).2.
Proof. unfold read_frame. by destruct (frames s !! r). Qed.

Lemma read_frame_state r s d s' : read_frame r s = (Ok d, s') -> s' = s.
Proof. unfold read_frame. destruct (frames s !! r); congruence. Qed.

Lemma get_tables_inv s db s' :
  get_tables s = (Ok db, s') -> (tables s, s) = (db, s').
Proof. unfold get_tables. congruence. Qed.

Lemma touches_create_table schema s :
  touches_only table s (create_table table schema s).2.
Proof.
  repeat split. intros t Ht. simpl. by rewrite lookup_insert_ne.
Qed.

Lemma touches_drop_table s : touches_only table s (drop_table table s).2.
Proof.
  repeat split. intros t Ht. simpl. by rewrite lookup_delete_ne.
Qed.

Lemma touches_insert_batches cols bs s :
  touches_only table s (insert_batches table cols bs s).2.
Proof.
  revert s. induction bs as [|b bs IH]; intros s; [done|].
  cbn [insert_batches].
  apply touches_bind; [apply touches_emit|]. intros [] s1 [= <-].
  apply touches_bind; [apply touches_refl|].
  intros db s2 [= <- <-]%get_tables_inv.
  cbn [tables log_to].
  destruct (tables s !! table) as [t|] eqn:Ht;
    [destruct (batch_fits t cols b)|]; try apply touches_refl.
  apply touches_bind; [|intros [] s3 _; apply IH].
  apply touches_put_tables. intros t' Ht'. by rewrite lookup_insert_ne.
Qed.

Lemma touches_to_sql df engine if_exists index chunksize method s :
  touches_only table s
    (to_sql df table engine if_exists index chunksize method s).2.
Proof.
  unfold to_sql.
  apply touches_bind; [apply touches_read_frame|].
  intros d s1 ->%read_frame_state.
  apply touches_bind; [destruct (bool_decide _); apply touches_refl|].
  intros [] s1 Hs1.
  assert (s1 = s) as ->.
  { destruct (bool_decide _); [by injection Hs1|discriminate]. }
  apply touches_bind.
  { destruct chunksize as [n|]; [destruct (bool_decide (0 < n))|];
      apply touches_refl. }
  intros c s1 Hs1'. assert (s1 = s) as ->.
  { destruct chunksize as [n|]; [destruct (bool_decide (0 < n))|];
      by inversion Hs1'. }
  apply touches_bind; [apply touches_emit|]. intros [] s1 [= <-].
  apply touches_bind; [destruct (pg_connect engine); apply touches_refl|].
  intros [] s2 Hs2.
  assert (s2 = log_to s [DbConnect (engine_url engine)]) as ->.
  { destruct (pg_connect engine); by inversion Hs2. }
  apply touches_bind; [apply touches_refl|].
  intros db0 s3 [= <- <-]%get_tables_inv.
  cbn [tables log_to].
  set (s1 := log_to s [DbConnect (engine_url engine)]).
  set (ddl := match tables s !! table with Some _ => _ | None => _ end).
  assert (touches_only table s1 (ddl s1).2) as Hddl.
  { unfold ddl. destruct (tables s !! table); [|apply touches_create_table].
    destruct (bool_decide (if_exists = "fail")); [apply touches_refl|].
    destruct (bool_decide (if_exists = "replace")); [|apply touches_refl].
    apply touches_bind; [apply touches_drop_table|].
    intros [] s2 _. apply touches_create_table. }
  apply touches_bind; [exact Hddl|]. intros [] s2 Hs2'.
  apply touches_insert_batches.
Qed.

(** C8: whatever its arguments and whether it returns or raises,
    [load_dataframe] leaves every DataFrame object as it was, the one it is
    given included, leaves the environment as it was, and leaves every
    table other than [table] as it was. *)
Theorem load_touches_only_the_table df engine if_exists chunksize s :
  let s' := (load_dataframe df engine table if_exists chunksize s).2 in
  frames s' = frames s
  /\ frames s' !! df = frames s !! df
  /\ environ s' = environ s
  /\ forall t, t ≠ table -> tables s' !! t = tables s !! t.
Proof.
  cut (touches_only table s
         (load_dataframe df engine table if_exists chunksize s).2).
  { intros (E & F & T). cbv zeta. by rewrite F. }
  unfold load_dataframe.
  apply touches_bind; [apply touches_read_frame|].
  intros d s1 ->%read_frame_state.
  destruct (df_empty d).
  { apply touches_bind; [apply touches_emit|]. intros; apply touches_refl. }
  apply touches_bind; [apply touches_emit|]. intros [] s1 _.
  apply touches_bind; [apply touches_to_sql|]. intros [] s2 _.
  apply touches_emit.
Qed.

End frame.

(** ** Loading: batches *)

Section batches.
Context {A : Type}.
Implicit Types (l : list A) (c k : nat).





Lemma batches_bound c l b : b ∈ batches c l -> (length b ≤ c)%nat.
Proof.
  unfold batches. intros (i & -> & _)%list_elem_of_fmap.
  rewrite length_take. lia.
Qed.

End batches.

(** ** Loading: two runs side by side *)

Section relational.
Context `{Services} (table : string).












(** *** What a sequence of batches leaves behind *)











End relational.

(** * The properties on the demonstration world *)

Section demo.
Existing Instance Demo.services.

Example demo_run :
  (main (Demo.start "people")).1 = Ok tt
  /\ tables (main (Demo.start "people")).2 !! "people"
     = Some {| tbl_schema := [("id", Numeric); ("name", Text)];
               tbl_rows := [[Some "1"; Some "Alice"]; [Some "2"; Some "Bob"]] |}.
Proof. by vm_compute. Qed.

Example demo_run_blank :
  (main (Demo.start "blank")).1 = Ok tt
  /\ tables (main (Demo.start "blank")).2 = ∅
  /\ existsb is_db_call (trace (main (Demo.start "blank")).2) = false.
Proof. by vm_compute. Qed.

(** C1 as stated fails on an empty value: with [SHEET_ID] set to the empty
    string, [env] returns the empty string, [main] goes on to call the
    spreadsheet service, and what ends the run is the service's answer, not
    a missing-variable error. *)
Lemma empty_value_is_accepted :
  let s := Demo.with_environ (<["SHEET_ID" := ""]> (Demo.environment "people")) in
  "SHEET_ID" ∈ required_keys
  /\ environ s !! "SHEET_ID" = Some ""
  /\ env "SHEET_ID" None s = (Ok "", s)
  /\ (main s).1 = Raise (SheetsError SpreadsheetNotFound)
  /\ existsb is_network_call (trace (main s).2) = true.
Proof.
  split; [unfold required_keys; set_solver|]. by vm_compute.
Qed.

Lemma missing_key_fails_first_witness :
  let s := Demo.with_environ (delete "PG_HOST" (Demo.environment "people")) in
  "PG_HOST" ∈ required_keys
  /\ environ s !! "PG_HOST" = None
  /\ main s
     = (Raise (RuntimeError "Missing required environment variable: PG_HOST"), s).
Proof.
  intros s.
  assert ("PG_HOST" ∈ required_keys) as Hin by (unfold required_keys; set_solver).
  assert (environ s !! "PG_HOST" = None) as Hnone by (vm_compute; reflexivity).
  split; [exact Hin|]. split; [exact Hnone|].
  destruct (missing_key_fails_first load_dataframe s "PG_HOST" Hin)
    as [_ Hmiss].
  destruct (Hmiss Hnone) as (k & Hk & Hmain & _).
  assert (k = "PG_HOST") as -> by (vm_compute in Hk; congruence).
  exact Hmain.
Defined.

Lemma worksheet_rows_become_records_witness :
  exists s',
    read_worksheet "sheet-1" "people" "{}" (Demo.start "people") = (Ok 0%nat, s')
    /\ frames s'
       = [{| df_columns := ["id"; "name"];
             df_values := [[Some "1"; Some "Alice"]; [Some "2"; Some "Bob"]] |}].
Proof.
  destruct (worksheet_rows_become_records (H := Demo.services)
              "sheet-1" "people" "{}" "{}" "{}"
              {[ "people" := Demo.people; "blank" := Demo.header_only ]}
              ["id"; "name"] [["1"; "Alice"]; ["2"; "Bob"]]
              (Demo.start "people")
              eq_refl eq_refl eq_refl eq_refl)
    as ((s' & Hrun & Hframes) & _).
  exists s'. split; [exact Hrun|exact Hframes].
Defined.

Lemma malformed_key_fails_before_network_witness :
  json_loads "not json" = None
  /\ read_worksheet "sheet-1" "people" "not json" (Demo.start "people")
     = (Raise JSONDecodeError, log_to (Demo.start "people") up_to_parse).
Proof.
  split; [reflexivity|].
  exact (proj1 (malformed_key_fails_before_network "sheet-1" "people"
                  "not json" (Demo.start "people") eq_refl)).
Defined.

Lemma header_only_gives_empty_frame_witness :
  (read_worksheet "sheet-1" "blank" "{}" (Demo.start "blank")).1 = Ok 0%nat
  /\ frames (read_worksheet "sheet-1" "blank" "{}" (Demo.start "blank")).2
     = [{| df_columns := []; df_values := [] |}].
Proof.
  rewrite (header_only_gives_empty_frame (H := Demo.services)
             "sheet-1" "blank" "{}" "{}" "{}"
             {[ "people" := Demo.people; "blank" := Demo.header_only ]}
             ["id"; "name"] (Demo.start "blank")
             eq_refl eq_refl eq_refl eq_refl).
  split; reflexivity.
Defined.

Lemma load_empty_is_noop_witness :
  frames Demo.loaded !! 1%nat = Some {| df_columns := []; df_values := [] |}
  /\ exists evs,
      load_dataframe 1 Demo.warehouse "people" "replace" (Some 1000) Demo.loaded
      = (Ok tt, log_to Demo.loaded evs)
      /\ existsb is_db_call evs = false.
Proof.
  split; [reflexivity|].
  destruct (load_empty_is_noop 1 Demo.warehouse "people" "replace" (Some 1000)
              Demo.loaded {| df_columns := []; df_values := [] |}
              eq_refl eq_refl)
    as (evs & Hrun & _ & Hdb & _).
  exists evs. split; [exact Hrun|exact Hdb].
Defined.

Lemma loader_arguments_are_constants_witness :
  environ (Demo.start "people") !! "PG_TABLE" = Some "people"
  /\ create_engine (build_pg_url "etl" "secret" "db" "5432" "warehouse")
     = Some Demo.warehouse
  /\ main_with load_dataframe (Demo.start "people")
     = load_dataframe 0 Demo.warehouse "people" "replace" (Some 1000)
         (at_the_load (Demo.start "people") "sheet-1" "people" Demo.people
            (build_pg_url "etl" "secret" "db" "5432" "warehouse")).
Proof.
  split; [reflexivity|]. split; [reflexivity|].
  exact (proj2 (proj2 (loader_arguments_are_constants (H := Demo.services)
                         load_dataframe (Demo.start "people")))
           "sheet-1" "people" "{}" "etl" "secret" "db" "5432" "warehouse"
           "people" "{}" "{}"
           {[ "people" := Demo.people; "blank" := Demo.header_only ]}
           Demo.people Demo.warehouse
           eq_refl eq_refl eq_refl eq_refl eq_refl eq_refl eq_refl eq_refl
           eq_refl eq_refl eq_refl eq_refl eq_refl eq_refl).
Defined.

Lemma chunksize_error_unreachable_witness :
  environ (Demo.start "blank") !! "PG_TABLE" = Some "people"
  /\ main (Demo.start "blank")
     = load_dataframe 0 Demo.warehouse "people" "replace" (Some 1000)
         (at_the_load (Demo.start "blank") "sheet-1" "blank" Demo.header_only
            (build_pg_url "etl" "secret" "db" "5432" "warehouse")).
Proof.
  split; [reflexivity|].
  exact (proj2 (proj2 (proj2 (proj2
           (chunksize_error_unreachable (H := Demo.services)
              (Demo.start "blank")))))
           "sheet-1" "blank" "{}" "etl" "secret" "db" "5432" "warehouse"
           "people" "{}" "{}"
           {[ "people" := Demo.people; "blank" := Demo.header_only ]}
           Demo.header_only Demo.warehouse
           eq_refl eq_refl eq_refl eq_refl eq_refl eq_refl eq_refl eq_refl
           eq_refl eq_refl eq_refl eq_refl eq_refl eq_refl).
Defined.



(** One batch of two rows against two batches of one row. *)
Example demo_round_trips :
  filter (fun e => bool_decide (is_db_call e))
    (trace (load_dataframe 0 Demo.warehouse "people" "replace" (Some 1)
              Demo.loaded).2)
  = [DbConnect "postgresql://etl:secret@db:5432/warehouse";
     DbCreateTable "people" [("id", Numeric); ("name", Text)];
     DbInsert "people" 1; DbInsert "people" 1]
  /\ filter (fun e => bool_decide (is_db_call e))
       (trace (load_dataframe 0 Demo.warehouse "people" "replace" (Some 1000)
                 Demo.loaded).2)
     = [DbConnect "postgresql://etl:secret@db:5432/warehouse";
        DbCreateTable "people" [("id", Numeric); ("name", Text)];
        DbInsert "people" 2].
Proof. by vm_compute. Qed.

End demo.

(** * Further properties of the program *)

(** ** The database URL, read back *)

Lemma string_app_cons a (s1 s2 : string) :
  String a s1 +:+ s2 = String a (s1 +:+ s2).
Proof. reflexivity. Qed.

Lemma string_app_assoc (s1 s2 s3 : string) :
  (s1 +:+ s2) +:+ s3 = s1 +:+ (s2 +:+ s3).
Proof.
  induction s1 as [|a s1 IH]; [reflexivity|].
  by rewrite !string_app_cons, IH.
Qed.

Lemma build_pg_url_parts (user password host port db : string) :
  build_pg_url user password host port db
  = "postgresql://" +:+ user +:+ String ":" (password +:+ String "@"
      (host +:+ String ":" (port +:+ String "/" db))).
Proof. reflexivity. Qed.

(** A text is cut in one way only at the first occurrence of [c]. *)
Lemma cut_unique (c : ascii) (a a' b b' : string) :
  occurs c a = false -> occurs c a' = false ->
  a +:+ String c b = a' +:+ String c b' -> a = a' /\ b = b'.
Proof.
  revert a'. induction a as [|x a IH]; intros [|x' a'] Ha Ha' Heq.
  - by injection Heq as ->.
  - rewrite string_app_cons in Heq. injection Heq as <- _.
    simpl in Ha'. by rewrite bool_decide_eq_true_2 in Ha'.
  - rewrite string_app_cons in Heq. injection Heq as -> _.
    simpl in Ha. by rewrite bool_decide_eq_true_2 in Ha.
  - rewrite !string_app_cons in Heq. injection Heq as <- Heq.
    simpl in Ha, Ha'. apply orb_false_iff in Ha as [_ Ha].
    apply orb_false_iff in Ha' as [_ Ha'].
    destruct (IH a' Ha Ha' Heq) as [-> ->]. done.
Qed.

(** X1: when the user and the host hold no colon, the password no at-sign
    and the port no slash, the five fields can be read back from the URL:
    two calls of [build_pg_url] that return the same URL were given the
    same fields. *)
Theorem build_pg_url_injective
    (user password host port db user' password' host' port' db' : string) :
  occurs ":" user = false -> occurs ":" user' = false ->
  occurs "@" password = false -> occurs "@" password' = false ->
  occurs ":" host = false -> occurs ":" host' = false ->
  occurs "/" port = false -> occurs "/" port' = false ->
  build_pg_url user password host port db
  = build_pg_url user' password' host' port' db' ->
  user = user' /\ password = password' /\ host = host' /\ port = port'
  /\ db = db'.
Proof.
  intros Hu Hu' Hp Hp' Hh Hh' Hpt Hpt'. rewrite !build_pg_url_parts.
  intros Heq. apply (inj (String.append _)) in Heq.
  apply cut_unique in Heq as [-> Heq]; [|done..].
  apply cut_unique in Heq as [-> Heq]; [|done..].
  apply cut_unique in Heq as [-> Heq]; [|done..].
  apply cut_unique in Heq as [-> ->]; done.
Qed.

(** X2: nothing marks where a field ends: a password [p@x] with host [h]
    and the password [p] with host [x@h] give the same URL, and so do a
    user [u:x] with password [p] and the user [u] with password [x:p]. *)
Theorem build_pg_url_separators_shift (user password host port db x : string) :
  build_pg_url user (password +:+ "@" +:+ x) host port db
  = build_pg_url user password (x +:+ "@" +:+ host) port db
  /\ build_pg_url (user +:+ ":" +:+ x) password host port db
     = build_pg_url user (x +:+ ":" +:+ password) host port db.
Proof.
  rewrite !build_pg_url_parts. split.
  - do 2 f_equal. by rewrite !string_app_assoc.
  - f_equal. by rewrite !string_app_assoc.
Qed.

(** ** State changes that every step of a run keeps *)

Section keeps.
Context (step : State -> State -> Prop).
Context (step_refl : forall s, step s s).
Context (step_trans : forall s1 s2 s3, step s1 s2 -> step s2 s3 -> step s1 s3).

Lemma keeps_bind {A B} (m : M A) (f : A -> M B) :
  keeps step m -> (forall a, keeps step (f a)) -> keeps step (m ≫= f).
Proof.
  intros Hm Hf s. unfold mbind, M_bind. specialize (Hm s).
  destruct (m s) as [[a|e] s']; [|exact Hm].
  eapply step_trans; [exact Hm|apply Hf].
Qed.

Lemma keeps_mret {A} (a : A) : keeps step (mret a).
Proof. intros s. apply step_refl. Qed.

Lemma keeps_raise {A} e : keeps step (@raise A e).
Proof. intros s. apply step_refl. Qed.

Lemma keeps_read_frame r : keeps step (read_frame r).
Proof. intros s. unfold read_frame. destruct (frames s !! r); apply step_refl. Qed.

Lemma keeps_env key default : keeps step (env key default).
Proof.
  intros s. unfold env, getenv, mbind, M_bind, mret, M_ret, raise. simpl.
  destruct (from_option Some default (environ s !! key)); apply step_refl.
Qed.

Lemma keeps_get_tables : keeps step get_tables.
Proof. intros s. apply step_refl. Qed.

End keeps.

Lemma no_db_effect_refl s : no_db_effect s s.
Proof.
  repeat split; [by exists []; rewrite app_nil_r|].
  exists []. by rewrite app_nil_r.
Qed.

Lemma no_db_effect_trans s1 s2 s3 :
  no_db_effect s1 s2 -> no_db_effect s2 s3 -> no_db_effect s1 s3.
Proof.
  intros (E1 & T1 & [fs1 F1] & evs1 & Tr1 & D1)
         (E2 & T2 & [fs2 F2] & evs2 & Tr2 & D2).
  repeat split; [congruence..| |].
  - exists (fs1 ++ fs2). by rewrite F2, F1, (assoc_L (++)).
  - exists (evs1 ++ evs2). split.
    + by rewrite Tr2, Tr1, (assoc_L (++)).
    + by rewrite existsb_app, D1, D2.
Qed.

Lemma quiet_emit e : is_db_call e = false -> keeps no_db_effect (emit e).
Proof.
  intros He s. repeat split; [by exists []; rewrite app_nil_r|].
  exists [e]. split; [done|]. simpl. by rewrite He.
Qed.

Lemma quiet_new_frame d : keeps no_db_effect (new_frame d).
Proof.
  intros s. repeat split; [by exists [d]|]. exists []. by rewrite app_nil_r.
Qed.

Ltac quiet_step :=
  first
    [ apply (keeps_env _ no_db_effect_refl)
    | apply (keeps_bind _ no_db_effect_trans); [|intros ?]
    | apply (keeps_mret _ no_db_effect_refl)
    | apply (keeps_raise _ no_db_effect_refl)
    | apply (keeps_read_frame _ no_db_effect_refl)
    | apply quiet_new_frame
    | apply quiet_emit; reflexivity
    | match goal with
      | |- keeps _ (match ?x with _ => _ end) => destruct x
      end ].

Ltac not_in_list :=
  let Hin := fresh in
  intros Hin; cbn [app up_to_parse] in Hin;
  repeat (apply elem_of_cons in Hin as [Hin|Hin]; [discriminate|]);
  by apply elem_of_nil in Hin.

Section extraction_more.
Context `{Services}.

Lemma quiet_read_worksheet sheet_id worksheet sa_json :
  keeps no_db_effect (read_worksheet sheet_id worksheet sa_json).
Proof.
  unfold read_worksheet, logger_info, logger_warning. repeat quiet_step.
Qed.

Lemma quiet_get_engine pg_url : keeps no_db_effect (get_engine pg_url).
Proof. unfold get_engine, logger_info. repeat quiet_step. Qed.

Lemma quiet_parse_chunksize str : keeps no_db_effect (parse_chunksize str).
Proof. unfold parse_chunksize. repeat quiet_step. Qed.

Lemma read_worksheet_bad_account sheet_id worksheet sa_json j s :
  json_loads sa_json = Some j ->
  from_service_account_info j sheet_scopes = None ->
  read_worksheet sheet_id worksheet sa_json s
  = (Raise MalformedServiceAccount,
     log_to s (up_to_parse ++ [ServiceAccountInfo sheet_scopes])).
Proof.
  intros Hj Hc.
  unfold read_worksheet, logger_info, emit, raise, mbind, M_bind, mret, M_ret.
  rewrite Hj. cbv zeta. rewrite Hc. by rewrite !log_to_log_to.
Qed.

(** What has happened when the spreadsheet has just been asked for. *)
Lemma read_worksheet_open_error sheet_id worksheet sa_json j creds e s :
  json_loads sa_json = Some j ->
  from_service_account_info j sheet_scopes = Some creds ->
  open_by_key creds sheet_id = inl e ->
  read_worksheet sheet_id worksheet sa_json s
  = (Raise (SheetsError e),
     log_to s (up_to_parse ++
               [ServiceAccountInfo sheet_scopes; Authorize;
                Log INFO "Opening spreadsheet %s (worksheet=%s)."
                  [AStr sheet_id; AStr worksheet];
                OpenByKey sheet_id])).
Proof.
  intros Hj Hc Ho.
  unfold read_worksheet, logger_info, emit, raise, mbind, M_bind, mret, M_ret.
  rewrite Hj. cbv zeta. rewrite Hc, Ho. by rewrite !log_to_log_to.
Qed.

Lemma read_worksheet_no_worksheet sheet_id worksheet sa_json j creds sh s :
  json_loads sa_json = Some j ->
  from_service_account_info j sheet_scopes = Some creds ->
  open_by_key creds sheet_id = inr sh ->
  sh !! worksheet = None ->
  read_worksheet sheet_id worksheet sa_json s
  = (Raise (SheetsError WorksheetNotFound),
     log_to s (up_to_parse ++
               [ServiceAccountInfo sheet_scopes; Authorize;
                Log INFO "Opening spreadsheet %s (worksheet=%s)."
                  [AStr sheet_id; AStr worksheet];
                OpenByKey sheet_id; OpenWorksheet worksheet])).
Proof.
  intros Hj Hc Ho Hw.
  unfold read_worksheet, logger_info, emit, raise, mbind, M_bind, mret, M_ret.
  rewrite Hj. cbv zeta. rewrite Hc, Ho, Hw. by rewrite !log_to_log_to.
Qed.

(** X3: a key text that is well-formed JSON but is no service-account key
    stops [read_worksheet] at [from_service_account_info]: it raises after
    the first log line and the two local calls, before any network call,
    and the rest of the state is as before. *)
Theorem bad_service_account_fails_before_network
    sheet_id worksheet sa_json j s :
  json_loads sa_json = Some j ->
  from_service_account_info j sheet_scopes = None ->
  exists evs,
    read_worksheet sheet_id worksheet sa_json s
    = (Raise MalformedServiceAccount, log_to s evs)
    /\ evs = up_to_parse ++ [ServiceAccountInfo sheet_scopes]
    /\ existsb is_network_call evs = false.
Proof.
  intros Hj Hc. eexists. split; [by eapply read_worksheet_bad_account|done].
Qed.

(** X4: when the service does not hand out the spreadsheet, or the
    spreadsheet has no worksheet of the given title, [read_worksheet]
    raises the service's error, respectively "worksheet not found"; no
    record was asked for, no frame was made and nothing but the trace
    changed. *)
Theorem unopened_sheet_fetches_nothing
    sheet_id worksheet sa_json j creds s :
  json_loads sa_json = Some j ->
  from_service_account_info j sheet_scopes = Some creds ->
  match open_by_key creds sheet_id with
  | inl e =>
      exists evs,
        read_worksheet sheet_id worksheet sa_json s
        = (Raise (SheetsError e), log_to s evs)
        /\ (GetAllRecords ∉ evs) /\ (OpenWorksheet worksheet ∉ evs)
  | inr sh =>
      sh !! worksheet = None ->
      exists evs,
        read_worksheet sheet_id worksheet sa_json s
        = (Raise (SheetsError WorksheetNotFound), log_to s evs)
        /\ (GetAllRecords ∉ evs) /\ last evs = Some (OpenWorksheet worksheet)
  end.
Proof.
  intros Hj Hc. destruct (open_by_key creds sheet_id) as [e|sh] eqn:Ho.
  - eexists. split; [by eapply read_worksheet_open_error|].
    split; not_in_list.
  - intros Hw. eexists. split; [by eapply read_worksheet_no_worksheet|].
    split; [not_in_list|done].
Qed.

(** X5: whatever the services answer, [read_worksheet] makes no database
    call and leaves the database, the environment and the DataFrame
    objects that exist as they are. *)
Theorem read_worksheet_no_db_effect sheet_id worksheet sa_json s :
  no_db_effect s (read_worksheet sheet_id worksheet sa_json s).2.
Proof. apply quiet_read_worksheet. Qed.

(** X6: [read_worksheet] makes a frame exactly when it returns: a normal
    return hands out a reference that did not exist before, to the one
    frame added; a failure adds no frame and is a JSON decoding error, a
    malformed service-account key or an error of the spreadsheet service,
    nothing else. *)
Theorem read_worksheet_allocates_on_return_only sheet_id worksheet sa_json s :
  match read_worksheet sheet_id worksheet sa_json s with
  | (Ok r, s') =>
      r = length (frames s) /\ frames s !! r = None
      /\ exists d, frames s' = frames s ++ [d] /\ frames s' !! r = Some d
  | (Raise e, s') =>
      frames s' = frames s
      /\ (e = JSONDecodeError \/ e = MalformedServiceAccount
          \/ exists w, e = SheetsError w)
  end.
Proof.
  destruct (json_loads sa_json) as [j|] eqn:Hj;
    [|rewrite (read_worksheet_malformed _ _ _ _ Hj); auto].
  destruct (from_service_account_info j sheet_scopes) as [c|] eqn:Hc;
    [|rewrite (read_worksheet_bad_account _ _ _ _ _ Hj Hc); auto].
  destruct (open_by_key c sheet_id) as [e|sh] eqn:Ho;
    [rewrite (read_worksheet_open_error _ _ _ _ _ _ _ Hj Hc Ho); eauto|].
  destruct (sh !! worksheet) as [ws|] eqn:Hw;
    [|rewrite (read_worksheet_no_worksheet _ _ _ _ _ _ _ Hj Hc Ho Hw); eauto].
  rewrite (read_worksheet_ok _ _ _ _ _ _ _ _ Hj Hc Ho Hw).
  split; [done|]. split; [by apply lookup_ge_None_2|].
  eexists. split; [done|]. cbn [frames]. by apply list_lookup_middle.
Qed.

End extraction_more.

(** ** Frames without a cell *)

Lemma add_key_incl (cols keys : list string) :
  let step := fun (cs : list string) k =>
                if bool_decide (k ∈ cs) then cs else cs ++ [k] in
  cols ⊆ foldl step cols keys /\ keys ⊆ foldl step cols keys.
Proof.
  cbv zeta. revert cols.
  induction keys as [|k keys IH]; intros cols; simpl.
  { split; [done|]. apply list_subseteq_nil. }
  destruct (IH (if bool_decide (k ∈ cols) then cols else cols ++ [k]))
    as [Hc Hk].
  split.
  - etrans; [|exact Hc]. case_bool_decide; [done|].
    intros x Hx. apply elem_of_app. by left.
  - intros x [->|Hx]%elem_of_cons; [|by apply Hk].
    apply Hc. case_bool_decide; [done|]. apply elem_of_app. right. by left.
Qed.

Lemma columns_incl (cols : list string) (records : list record) :
  cols ⊆ foldl add_keys cols records
  /\ forall r, r ∈ records -> dict_keys r ⊆ foldl add_keys cols records.
Proof.
  revert cols. induction records as [|r records IH]; intros cols; simpl.
  { split; [done|]. intros r Hr. by apply elem_of_nil in Hr. }
  destruct (IH (add_keys cols r)) as [Hc Hr].
  destruct (add_key_incl cols (dict_keys r)) as [Hc' Hk'].
  split; [by etrans|].
  intros r' [->|Hin]%elem_of_cons; [|by apply Hr].
  by etrans.
Qed.

Lemma columns_no_key (cols : list string) (records : list record) :
  Forall (fun r => r = []) records -> foldl add_keys cols records = cols.
Proof.
  induction 1 as [|r records -> _ IH]; simpl; [done|exact IH].
Qed.

Lemma df_empty_no_key (records : list record) :
  df_empty (pd_DataFrame records) = true <-> Forall (fun r => r = []) records.
Proof.
  unfold df_empty, pd_DataFrame. cbn [df_values df_columns]. split.
  - intros [Hv|Hc]%orb_true_iff.
    + apply bool_decide_eq_true_1, fmap_nil_inv in Hv. by subst.
    + apply bool_decide_eq_true_1 in Hc. apply Forall_forall. intros r Hr.
      destruct (columns_incl [] records) as [_ Hk].
      specialize (Hk r Hr). rewrite Hc in Hk.
      destruct r as [|[k v] r]; [done|].
      exfalso. eapply elem_of_nil, Hk. unfold dict_keys. simpl. by left.
  - intros Hall. rewrite (columns_no_key [] records Hall).
    rewrite (bool_decide_eq_true_2 ([] = [])) by done. apply orb_true_r.
Qed.

Section summary.
Context `{Services}.

(** X7: after a fetch that went through, the last thing [read_worksheet]
    logs is the warning "Worksheet is empty. Nothing to load." exactly when
    no record has a key (in particular when there is no record); otherwise
    it is the line "Pulled %d rows × %d columns." with the number of
    records and the number of columns of the frame. *)
Theorem read_worksheet_last_log
    sheet_id worksheet sa_json j creds sh ws s :
  json_loads sa_json = Some j ->
  from_service_account_info j sheet_scopes = Some creds ->
  open_by_key creds sheet_id = inr sh ->
  sh !! worksheet = Some ws ->
  let records := get_all_records ws in
  last (trace (read_worksheet sheet_id worksheet sa_json s).2)
  = Some (if bool_decide (Forall (fun r : record => r = []) records)
          then Log WARNING "Worksheet is empty. Nothing to load." []
          else Log INFO "Pulled %d rows × %d columns."
                 [AInt (Z.of_nat (length records));
                  AInt (Z.of_nat (length (df_columns (pd_DataFrame records))))]).
Proof.
  intros Hj Hc Ho Hw records.
  rewrite (read_worksheet_ok _ _ _ _ _ _ _ _ Hj Hc Ho Hw).
  cbn [snd trace]. rewrite (assoc_L (++)), last_snoc. f_equal.
  unfold summary. fold records.
  destruct (df_empty (pd_DataFrame records)) eqn:He.
  - apply df_empty_no_key in He. by rewrite bool_decide_eq_true_2.
  - rewrite bool_decide_eq_false_2.
    + unfold df_shape, pd_DataFrame. cbn [df_values df_columns fst snd].
      by rewrite length_fmap.
    + intros Hall. apply df_empty_no_key in Hall. congruence.
Qed.

End summary.

(** ** The loader, frame by frame *)

Lemma trace_extends_refl s : trace_extends s s.
Proof. exists []. by rewrite app_nil_r. Qed.

Lemma trace_extends_trans s1 s2 s3 :
  trace_extends s1 s2 -> trace_extends s2 s3 -> trace_extends s1 s3.
Proof.
  intros [evs1 E1] [evs2 E2]. exists (evs1 ++ evs2).
  by rewrite E2, E1, (assoc_L (++)).
Qed.

Lemma extends_emit e : keeps trace_extends (emit e).
Proof. intros s. by exists [e]. Qed.

Lemma extends_put_tables db : keeps trace_extends (put_tables db).
Proof. intros s. exists []. simpl. by rewrite app_nil_r. Qed.

Ltac extends_step :=
  first
    [ apply (keeps_bind _ trace_extends_trans); [|intros ?]
    | apply (keeps_mret _ trace_extends_refl)
    | apply (keeps_raise _ trace_extends_refl)
    | apply (keeps_read_frame _ trace_extends_refl)
    | apply (keeps_get_tables _ trace_extends_refl)
    | apply extends_put_tables
    | apply extends_emit
    | match goal with
      | |- keeps _ (match ?x with _ => _ end) => destruct x
      end ].

Section loader.
Context `{Services}.

Lemma extends_insert_batches table cols bs :
  keeps trace_extends (insert_batches table cols bs).
Proof.
  induction bs as [|b bs IH]; simpl; [apply (keeps_mret _ trace_extends_refl)|].
  repeat first [exact IH | extends_step].
Qed.

Lemma extends_to_sql df table engine if_exists index chunksize method :
  keeps trace_extends (to_sql df table engine if_exists index chunksize method).
Proof.
  unfold to_sql, create_table, drop_table.
  repeat first [apply extends_insert_batches | extends_step].
Qed.

(** X8: [load_dataframe] decides on [df.empty] alone.  A frame with no row
    or with no column is skipped: one log line, nothing else.  Any other
    frame is announced, with the table, the policy and the batch size the
    caller gave, before anything else happens. *)
Theorem load_skips_exactly_the_empty_frames
    df engine table if_exists chunksize s d :
  frames s !! df = Some d ->
  if bool_decide (df_values d = [] \/ df_columns d = [])
  then load_dataframe df engine table if_exists chunksize s
       = (Ok tt, log_to s [Log INFO "Skip loading: DataFrame is empty." []])
  else exists evs,
      trace (load_dataframe df engine table if_exists chunksize s).2
      = trace s
        ++ Log INFO
             "Loading DataFrame into table '%s' (if_exists=%s, chunksize=%s)…"
             [AStr table; AStr if_exists; from_option AInt ANone chunksize]
           :: evs.
Proof.
  intros Hd. unfold load_dataframe.
  rewrite (bind_ok _ _ s d s) by (unfold read_frame; by rewrite Hd).
  unfold df_empty. case_bool_decide as Hempty.
  - assert (bool_decide (df_values d = []) || bool_decide (df_columns d = [])
            = true) as ->; [|done].
    destruct Hempty as [Hv|Hc];
      [rewrite (bool_decide_eq_true_2 _ Hv)|rewrite (bool_decide_eq_true_2 _ Hc)];
      [done|apply orb_true_r].
  - assert (bool_decide (df_values d = []) || bool_decide (df_columns d = [])
            = false) as ->.
    { apply orb_false_iff. split; apply bool_decide_eq_false_2; tauto. }
    unfold logger_info at 1.
    rewrite (bind_ok _ _ s tt (log_to s [_])) by done.
    match goal with
    | |- context [((?m ≫= ?f) ?s0).2] =>
        assert (keeps trace_extends (m ≫= f)) as Hk
    end.
    { unfold logger_info.
      repeat first [apply extends_to_sql | extends_step]. }
    destruct (Hk (log_to s [Log INFO
      "Loading DataFrame into table '%s' (if_exists=%s, chunksize=%s)…"
      [AStr table; AStr if_exists; from_option AInt ANone chunksize]]))
      as [evs Hevs].
    exists evs. rewrite Hevs. cbn [log_to trace].
    by rewrite <- (assoc_L (++)).
Qed.

End loader.

(** ** Runs of [main] and the database *)

Lemma fails_quietly_bind {A B} (m : M A) (f : A -> M B) :
  keeps no_db_effect m -> (forall a, fails_quietly (f a)) ->
  fails_quietly (m ≫= f).
Proof.
  intros Hm Hf s e. unfold mbind, M_bind. specialize (Hm s).
  destruct (m s) as [[a|e'] s'] eqn:E; cbn [fst snd] in *.
  - intros He Hload. eapply no_db_effect_trans; [exact Hm|].
    by eapply Hf.
  - by intros _ _.
Qed.

Lemma same_table_trans t s1 s2 s3 :
  same_table t s1 s2 -> same_table t s2 s3 -> same_table t s1 s3.
Proof. unfold same_table. congruence. Qed.

Lemma same_table_quiet {A} t (m : M A) :
  keeps no_db_effect m -> keeps (same_table t) m.
Proof. intros Hm s. destruct (Hm s) as (_ & T & _). unfold same_table. by rewrite T. Qed.

Section main_more.
Context `{Services}.

Lemma insert_batches_raises_only e0 table cols bs :
  is_load_exn e0 = false ->
  never_raises e0 (insert_batches table cols bs).
Proof.
  intros He. destruct e0; try discriminate He;
    (induction bs as [|b bs IH]; simpl; [apply never_mret|];
     repeat never_raises_step; exact IH).
Qed.

Lemma to_sql_raises_only e0 df table engine if_exists index chunksize method :
  is_load_exn e0 = false ->
  never_raises e0 (to_sql df table engine if_exists index chunksize method).
Proof.
  intros He. unfold to_sql, create_table, drop_table.
  destruct e0; try discriminate He;
    repeat first [by apply insert_batches_raises_only | never_raises_step].
Qed.

Lemma load_dataframe_raises_only e0 df engine table if_exists chunksize :
  is_load_exn e0 = false ->
  never_raises e0 (load_dataframe df engine table if_exists chunksize).
Proof.
  intros He. unfold load_dataframe, logger_info.
  destruct e0; try discriminate He;
    repeat first [by apply to_sql_raises_only | never_raises_step].
Qed.

Lemma fails_quietly_load_dataframe df engine table if_exists chunksize :
  fails_quietly (load_dataframe df engine table if_exists chunksize).
Proof.
  intros s e He Hload.
  by destruct (load_dataframe_raises_only e df engine table if_exists
                 chunksize Hload s).
Qed.

(** X9: a run of [main] that ends in any exception other than those of
    the bulk write (a missing variable, a bad key, an error of the
    spreadsheet service, a bad database URL) has made no database call and
    has left every table as it was. *)
Theorem failure_before_the_load_spares_the_database s e :
  (main s).1 = Raise e ->
  is_load_exn e = false ->
  no_db_effect s (main s).2.
Proof.
  revert s e. change (fails_quietly main). unfold main, main_with.
  do 9 (apply fails_quietly_bind;
          [apply (keeps_env _ no_db_effect_refl)|intros ?]).
  cbv zeta.
  apply fails_quietly_bind; [apply quiet_parse_chunksize|intros ?].
  apply fails_quietly_bind; [apply quiet_read_worksheet|intros ?].
  apply fails_quietly_bind; [apply quiet_get_engine|intros ?].
  apply fails_quietly_load_dataframe.
Qed.

Lemma touches_load_dataframe table df engine if_exists chunksize s :
  touches_only table s (load_dataframe df engine table if_exists chunksize s).2.
Proof.
  unfold load_dataframe.
  apply touches_bind; [apply touches_read_frame|].
  intros d s1 ->%read_frame_state.
  destruct (df_empty d).
  { apply touches_bind; [apply touches_emit|]. intros; apply touches_refl. }
  apply touches_bind; [apply touches_emit|]. intros [] s1 _.
  apply touches_bind; [apply touches_to_sql|]. intros [] s2 _.
  apply touches_emit.
Qed.

(** X10: the one table a run of [main] can change is the one that
    [PG_TABLE] names: every table of another name is after the run what
    it was before, however the run ends. *)
Theorem main_writes_to_the_target_table_only s t :
  environ s !! "PG_TABLE" ≠ Some t ->
  tables (main s).2 !! t = tables s !! t.
Proof.
  intros Ht. change (same_table t s (main s).2). unfold main, main_with.
  repeat (rewrite env_bind;
          match goal with
          | |- context [environ s !! ?x] =>
              destruct (environ s !! x) eqn:?; [|reflexivity]
          end).
  cbv zeta.
  match goal with
  | Hv : environ s !! "PG_TABLE" = Some ?v |- _ =>
      assert (v ≠ t) as Hne by congruence; clear Hv; revert Hne;
      generalize v; intros table Hne
  end.
  match goal with |- same_table t s (?m s).2 => cut (keeps (same_table t) m) end.
  { intros Hk. apply Hk. }
  apply (keeps_bind _ (same_table_trans t));
    [apply same_table_quiet, quiet_parse_chunksize|intros ?].
  apply (keeps_bind _ (same_table_trans t));
    [apply same_table_quiet, quiet_read_worksheet|intros ?].
  apply (keeps_bind _ (same_table_trans t));
    [apply same_table_quiet, quiet_get_engine|intros ?].
  intros s'. by apply (touches_load_dataframe table).
Qed.

End main_more.

(** ** Runs of [main] and the environment *)

Lemma blind_bind {A B} (m : M A) (f : A -> M B) :
  blind m -> (forall a, blind (f a)) -> blind (m ≫= f).
Proof.
  intros Hm Hf s1 s2 Hs. destruct (Hm s1 s2 Hs) as [Hr Hs'].
  unfold mbind, M_bind.
  destruct (m s1) as [[a1|e1] s1'], (m s2) as [[a2|e2] s2'];
    cbn [fst snd] in *; try discriminate.
  - injection Hr as ->. by apply Hf.
  - injection Hr as ->. done.
Qed.

Lemma blind_mret {A} (a : A) : blind (mret a).
Proof. by intros s1 s2 Hs. Qed.

Lemma blind_raise {A} e : blind (@raise A e).
Proof. by intros s1 s2 Hs. Qed.

Lemma blind_emit e : blind (emit e).
Proof.
  intros s1 s2 (F & T & Tr & E). repeat split; try done.
  cbn. by rewrite Tr.
Qed.

Lemma blind_get_tables : blind get_tables.
Proof. intros s1 s2 Hs. split; [|done]. cbn. f_equal. apply Hs. Qed.

Lemma blind_put_tables db : blind (put_tables db).
Proof. intros s1 s2 (F & T & Tr & E). by repeat split. Qed.

Lemma blind_new_frame d : blind (new_frame d).
Proof.
  intros s1 s2 (F & T & Tr & E). repeat split; try done; cbn; by rewrite F.
Qed.

Lemma blind_read_frame r : blind (read_frame r).
Proof.
  intros s1 s2 Hs. unfold read_frame. destruct Hs as (F & T & Tr & E).
  rewrite F. destruct (frames s2 !! r); by repeat split.
Qed.

Lemma blind_env key : key ∈ required_keys -> blind (env key None).
Proof.
  intros Hk s1 s2 Hs. rewrite !env_eq.
  destruct Hs as (F & T & Tr & E). rewrite (E key Hk).
  destruct (environ s2 !! key); by repeat split.
Qed.

Ltac blind_step :=
  first
    [ apply blind_env; unfold required_keys; repeat constructor
    | apply blind_bind; [|intros ?]
    | apply blind_mret | apply blind_raise | apply blind_emit
    | apply blind_get_tables | apply blind_put_tables
    | apply blind_new_frame | apply blind_read_frame
    | match goal with
      | |- blind (match ?x with _ => _ end) => destruct x
      end ].

Section environment.
Context `{Services}.

Lemma blind_insert_batches table cols bs :
  blind (insert_batches table cols bs).
Proof.
  induction bs as [|b bs IH]; simpl; [apply blind_mret|].
  repeat first [exact IH | blind_step].
Qed.

Lemma blind_load_dataframe df engine table if_exists chunksize :
  blind (load_dataframe df engine table if_exists chunksize).
Proof.
  unfold load_dataframe, logger_info, to_sql, create_table, drop_table.
  repeat first [apply blind_insert_batches | blind_step].
Qed.

Lemma blind_read_worksheet sheet_id worksheet sa_json :
  blind (read_worksheet sheet_id worksheet sa_json).
Proof.
  unfold read_worksheet, logger_info, logger_warning. repeat blind_step.
Qed.

(** X11: [main] reads the nine required variables and nothing else of the
    environment: two runs from states that agree on these nine variables
    and on frames, database and trace end alike and leave the same
    database, frames and trace, whatever else the environments hold
    ([LOG_LEVEL], a [PG_CHUNKSIZE], a policy variable). *)
Theorem main_reads_the_required_keys_only s1 s2 :
  frames s1 = frames s2 ->
  tables s1 = tables s2 ->
  trace s1 = trace s2 ->
  (forall k, k ∈ required_keys -> environ s1 !! k = environ s2 !! k) ->
  (main s1).1 = (main s2).1
  /\ tables (main s1).2 = tables (main s2).2
  /\ trace (main s1).2 = trace (main s2).2
  /\ frames (main s1).2 = frames (main s2).2.
Proof.
  intros F T Tr E.
  assert (blind main) as Hblind.
  { unfold main, main_with, get_engine, logger_info.
    repeat first [ apply blind_load_dataframe | apply blind_read_worksheet
                 | blind_step ]. }
  destruct (Hblind s1 s2) as (Hr & F' & T' & Tr' & _); by repeat split.
Qed.

Lemma logger_info_bind {B} fmt args (f : unit -> M B) s :
  (logger_info fmt args ≫= f) s = f tt (log_to s [Log INFO fmt args]).
Proof. reflexivity. Qed.

Lemma load_dataframe_ok_last df engine table if_exists chunksize s :
  (load_dataframe df engine table if_exists chunksize s).1 = Ok tt ->
  last (trace (load_dataframe df engine table if_exists chunksize s).2)
  = Some (Log INFO "Skip loading: DataFrame is empty." [])
  \/ last (trace (load_dataframe df engine table if_exists chunksize s).2)
     = Some (Log INFO "Load completed." []).
Proof.
  unfold load_dataframe.
  destruct (frames s !! df) as [d|] eqn:Hd.
  2: { rewrite (bind_raise _ _ s DanglingReference s)
         by (unfold read_frame; by rewrite Hd).
       discriminate. }
  rewrite (bind_ok _ _ s d s) by (unfold read_frame; by rewrite Hd).
  destruct (df_empty d).
  { intros _. left. apply last_snoc. }
  rewrite !logger_info_bind.
  destruct (to_sql df table engine if_exists false chunksize "multi"
              (log_to s [Log INFO
                 "Loading DataFrame into table '%s' (if_exists=%s, chunksize=%s)…"
                 [AStr table; AStr if_exists; from_option AInt ANone chunksize]]))
    as [[[]|e] s'] eqn:Hs.
  - rewrite (bind_ok _ _ _ _ _ Hs). intros _. right. apply last_snoc.
  - rewrite (bind_raise _ _ _ _ _ Hs). discriminate.
Qed.

(** X12: a run of [main] returns normally only if all nine required
    variables are set, and then the last thing it logged is "Skip loading:
    DataFrame is empty." or "Load completed.". *)
Theorem main_returns_after_a_skip_or_a_load s :
  (main s).1 = Ok tt ->
  (forall k, k ∈ required_keys -> is_Some (environ s !! k))
  /\ (last (trace (main s).2)
      = Some (Log INFO "Skip loading: DataFrame is empty." [])
      \/ last (trace (main s).2) = Some (Log INFO "Load completed." [])).
Proof.
  unfold main, main_with.
  repeat (rewrite env_bind;
          match goal with
          | |- context [environ s !! ?x] =>
              destruct (environ s !! x) eqn:?; [|discriminate]
          end).
  cbv zeta. rewrite (bind_ok _ _ _ _ _ (parse_chunksize_literal _)).
  intros Hok. split.
  { intros k Hk. unfold required_keys in Hk.
    repeat (apply elem_of_cons in Hk as [->|Hk]; [by eexists|]).
    by apply elem_of_nil in Hk. }
  revert Hok.
  match goal with
  | |- context [(read_worksheet ?a ?b ?c ≫= _) s] =>
      destruct (read_worksheet a b c s) as [[r|e] st1] eqn:Hr
  end.
  2: { rewrite (bind_raise _ _ _ _ _ Hr). discriminate. }
  rewrite (bind_ok _ _ _ _ _ Hr).
  match goal with
  | |- context [(get_engine ?u ≫= _) st1] =>
      destruct (get_engine u st1) as [[engine|e] st2] eqn:He
  end.
  2: { rewrite (bind_raise _ _ _ _ _ He). discriminate. }
  rewrite (bind_ok _ _ _ _ _ He).
  apply load_dataframe_ok_last.
Qed.

End environment.

(** ** A run on a worksheet without data *)

Section empty_sheet.
Context `{Services}.

Lemma get_engine_ok pg_url engine s :
  create_engine pg_url = Some engine ->
  get_engine pg_url s
  = (Ok engine,
     log_to s [Log INFO "Creating SQLAlchemy engine." []; CreateEngine pg_url]).
Proof.
  intros He. unfold get_engine, logger_info, emit, mbind, M_bind, mret, M_ret.
  rewrite He. by rewrite log_to_log_to.
Qed.

(** X13: when all nine variables are set, the fetch goes through and no
    record has a key (a worksheet with its header row only, for one), a
    run of [main] returns normally: it makes the engine and then skips
    the load, so that no database call is made and the database, under
    the policy ["replace"] too, keeps the table it had. *)
Theorem empty_sheet_never_reaches_the_database
    s sheet_id worksheet sa_json user password host port db table
    j creds sh ws engine :
  environ s !! "SHEET_ID" = Some sheet_id ->
  environ s !! "WORKSHEET" = Some worksheet ->
  environ s !! "GOOGLE_SA_KEY_JSON" = Some sa_json ->
  environ s !! "PG_USER" = Some user ->
  environ s !! "PG_PASSWORD" = Some password ->
  environ s !! "PG_HOST" = Some host ->
  environ s !! "PG_PORT" = Some port ->
  environ s !! "PG_DB" = Some db ->
  environ s !! "PG_TABLE" = Some table ->
  json_loads sa_json = Some j ->
  from_service_account_info j sheet_scopes = Some creds ->
  open_by_key creds sheet_id = inr sh ->
  sh !! worksheet = Some ws ->
  Forall (fun r : record => r = []) (get_all_records ws) ->
  create_engine (build_pg_url user password host port db) = Some engine ->
  exists evs,
    main s
    = (Ok tt,
       {| environ := environ s;
          frames := frames s ++ [pd_DataFrame (get_all_records ws)];
          tables := tables s;
          trace := trace s ++ evs |})
    /\ existsb is_db_call evs = false
    /\ last evs = Some (Log INFO "Skip loading: DataFrame is empty." []).
Proof.
  intros E1 E2 E3 E4 E5 E6 E7 E8 E9 Hj Hc Ho Hw Hempty He.
  apply df_empty_no_key in Hempty.
  exists (up_to_fetch sheet_id worksheet
          ++ [Log WARNING "Worksheet is empty. Nothing to load." [];
              Log INFO "Creating SQLAlchemy engine." [];
              CreateEngine (build_pg_url user password host port db);
              Log INFO "Skip loading: DataFrame is empty." []]).
  split; [|split; reflexivity].
  unfold main, main_with.
  rewrite env_bind, E1, env_bind, E2, env_bind, E3, env_bind, E4, env_bind, E5,
    env_bind, E6, env_bind, E7, env_bind, E8, env_bind, E9.
  cbv zeta. rewrite (bind_ok _ _ _ _ _ (parse_chunksize_literal _)).
  rewrite (bind_ok _ _ _ _ _ (read_worksheet_ok _ _ _ _ _ _ _ s Hj Hc Ho Hw)).
  rewrite (bind_ok _ _ _ _ _ (get_engine_ok _ _ _ He)).
  unfold load_dataframe.
  erewrite bind_ok;
    [|unfold read_frame; cbn [log_to frames];
      by rewrite list_lookup_middle].
  rewrite Hempty, logger_info_bind. unfold summary. rewrite Hempty.
  unfold mret, M_ret, log_to. cbn [environ frames tables trace].
  do 2 f_equal. by rewrite <- !(assoc_L (++)).
Qed.

(** X14: the database URL is looked at last: when the nine variables are
    set and the fetch goes through but [create_engine] refuses the URL
    built from the five [PG_] variables, [main] raises the URL error only
    after the records were fetched and the frame was made; no database call
    is made. *)
Theorem bad_database_url_is_found_after_the_fetch
    s sheet_id worksheet sa_json user password host port db table
    j creds sh ws :
  environ s !! "SHEET_ID" = Some sheet_id ->
  environ s !! "WORKSHEET" = Some worksheet ->
  environ s !! "GOOGLE_SA_KEY_JSON" = Some sa_json ->
  environ s !! "PG_USER" = Some user ->
  environ s !! "PG_PASSWORD" = Some password ->
  environ s !! "PG_HOST" = Some host ->
  environ s !! "PG_PORT" = Some port ->
  environ s !! "PG_DB" = Some db ->
  environ s !! "PG_TABLE" = Some table ->
  json_loads sa_json = Some j ->
  from_service_account_info j sheet_scopes = Some creds ->
  open_by_key creds sheet_id = inr sh ->
  sh !! worksheet = Some ws ->
  create_engine (build_pg_url user password host port db) = None ->
  exists evs,
    main s
    = (Raise ArgumentError,
       {| environ := environ s;
          frames := frames s ++ [pd_DataFrame (get_all_records ws)];
          tables := tables s;
          trace := trace s ++ up_to_fetch sheet_id worksheet ++ evs |})
    /\ last evs = Some (CreateEngine (build_pg_url user password host port db))
    /\ existsb is_db_call (up_to_fetch sheet_id worksheet ++ evs) = false.
Proof.
  intros E1 E2 E3 E4 E5 E6 E7 E8 E9 Hj Hc Ho Hw He.
  exists [summary (pd_DataFrame (get_all_records ws));
          Log INFO "Creating SQLAlchemy engine." [];
          CreateEngine (build_pg_url user password host port db)].
  split; [|split; [reflexivity|]].
  - unfold main, main_with.
    rewrite env_bind, E1, env_bind, E2, env_bind, E3, env_bind, E4, env_bind,
      E5, env_bind, E6, env_bind, E7, env_bind, E8, env_bind, E9.
    cbv zeta. rewrite (bind_ok _ _ _ _ _ (parse_chunksize_literal _)).
    rewrite (bind_ok _ _ _ _ _ (read_worksheet_ok _ _ _ _ _ _ _ s Hj Hc Ho Hw)).
    erewrite bind_raise; [reflexivity|].
    unfold get_engine, logger_info, emit, raise, mbind, M_bind.
    rewrite He. unfold log_to. cbn [environ frames tables trace].
    do 2 f_equal. by rewrite <- !(assoc_L (++)).
  - unfold summary. by destruct (df_empty _).
Qed.

End empty_sheet.

(** * The further properties on the two worlds *)

Section demo_more.

Lemma build_pg_url_injective_witness :
  occurs ":" "etl" = false /\ occurs "@" "secret" = false
  /\ occurs ":" "db" = false /\ occurs "/" "5432" = false
  /\ ("etl" = "etl" /\ "secret" = "secret" /\ "db" = "db" /\ "5432" = "5432"
      /\ "warehouse" = "warehouse").
Proof.
  do 4 (split; [reflexivity|]).
  exact (build_pg_url_injective "etl" "secret" "db" "5432" "warehouse"
           "etl" "secret" "db" "5432" "warehouse"
           eq_refl eq_refl eq_refl eq_refl eq_refl eq_refl eq_refl eq_refl
           eq_refl).
Defined.

Lemma bad_service_account_fails_before_network_witness :
  json_loads (Services := Faulty.services) "{}" = Some "{}"
  /\ from_service_account_info (Services := Faulty.services) "{}" sheet_scopes
     = None
  /\ exists evs,
      read_worksheet (H := Faulty.services) "sheet-1" "people" "{}" Faulty.start
      = (Raise MalformedServiceAccount, log_to Faulty.start evs)
      /\ existsb is_network_call evs = false.
Proof.
  split; [reflexivity|]. split; [reflexivity|].
  destruct (bad_service_account_fails_before_network (H := Faulty.services)
              "sheet-1" "people" "{}" "{}" Faulty.start eq_refl eq_refl)
    as (evs & Hrun & _ & Hnet).
  exists evs. split; [exact Hrun|exact Hnet].
Defined.

Lemma unopened_sheet_fetches_nothing_witness :
  open_by_key (Services := Faulty.services) "{key}" "locked" = inl APIError
  /\ exists evs,
      read_worksheet (H := Faulty.services) "locked" "people" "{key}"
        Faulty.start
      = (Raise (SheetsError APIError), log_to Faulty.start evs)
      /\ GetAllRecords ∉ evs.
Proof.
  split; [reflexivity|].
  destruct (unopened_sheet_fetches_nothing (H := Faulty.services)
              "locked" "people" "{key}" "{key}" "{key}" Faulty.start
              eq_refl eq_refl)
    as (evs & Hrun & Hget & _).
  exists evs. split; [exact Hrun|exact Hget].
Defined.

Lemma read_worksheet_last_log_witness :
  last (trace (read_worksheet (H := Demo.services) "sheet-1" "people" "{}"
                 (Demo.start "people")).2)
  = Some (Log INFO "Pulled %d rows × %d columns." [AInt 2; AInt 2]).
Proof.
  exact (read_worksheet_last_log (H := Demo.services)
           "sheet-1" "people" "{}" "{}" "{}"
           {[ "people" := Demo.people; "blank" := Demo.header_only ]}
           Demo.people (Demo.start "people")
           eq_refl eq_refl eq_refl eq_refl).
Defined.

Lemma load_skips_exactly_the_empty_frames_witness :
  frames Demo.loaded !! 1%nat = Some {| df_columns := []; df_values := [] |}
  /\ load_dataframe (H := Demo.services) 1 Demo.warehouse "people" "replace"
       (Some 1000) Demo.loaded
     = (Ok tt,
        log_to Demo.loaded [Log INFO "Skip loading: DataFrame is empty." []]).
Proof.
  split; [reflexivity|].
  exact (load_skips_exactly_the_empty_frames (H := Demo.services)
           1 Demo.warehouse "people" "replace" (Some 1000) Demo.loaded
           {| df_columns := []; df_values := [] |} eq_refl).
Defined.

Lemma failure_before_the_load_spares_the_database_witness :
  (main (H := Faulty.services)
     (Demo.with_environ (<["SHEET_ID" := "locked"]> Faulty.environment))).1
  = Raise (SheetsError APIError)
  /\ is_load_exn (SheetsError APIError) = false
  /\ tables (main (H := Faulty.services)
               (Demo.with_environ
                  (<["SHEET_ID" := "locked"]> Faulty.environment))).2
     = ∅.
Proof.
  assert ((main (H := Faulty.services)
             (Demo.with_environ (<["SHEET_ID" := "locked"]> Faulty.environment))).1
          = Raise (SheetsError APIError)) as Hrun by (vm_compute; reflexivity).
  split; [exact Hrun|]. split; [reflexivity|].
  exact (proj1 (proj2 (failure_before_the_load_spares_the_database
                         (H := Faulty.services) _ _ Hrun eq_refl))).
Defined.

Lemma main_writes_to_the_target_table_only_witness :
  environ (Demo.start "people") !! "PG_TABLE" ≠ Some "orders"
  /\ tables (main (H := Demo.services) (Demo.start "people")).2 !! "orders"
     = tables (Demo.start "people") !! "orders".
Proof.
  assert (environ (Demo.start "people") !! "PG_TABLE" ≠ Some "orders") as Hne
    by (vm_compute; discriminate).
  split; [exact Hne|].
  exact (main_writes_to_the_target_table_only (H := Demo.services)
           (Demo.start "people") "orders" Hne).
Defined.

Lemma main_reads_the_required_keys_only_witness :
  let s1 := Demo.start "people" in
  let s2 := Demo.with_environ
              (<["PG_CHUNKSIZE" := "1"]>
                 (<["PG_IF_EXISTS" := "append"]>
                    (<["LOG_LEVEL" := "ERROR"]> (Demo.environment "people")))) in
  (forall k, k ∈ required_keys -> environ s1 !! k = environ s2 !! k)
  /\ (main (H := Demo.services) s1).1 = (main (H := Demo.services) s2).1
  /\ trace (main (H := Demo.services) s1).2
     = trace (main (H := Demo.services) s2).2.
Proof.
  intros s1 s2.
  assert (forall k, k ∈ required_keys -> environ s1 !! k = environ s2 !! k)
    as Hkeys.
  { intros k Hk. unfold required_keys in Hk.
    repeat (apply elem_of_cons in Hk as [->|Hk]; [vm_compute; reflexivity|]).
    by apply elem_of_nil in Hk. }
  split; [exact Hkeys|].
  destruct (main_reads_the_required_keys_only (H := Demo.services) s1 s2
              eq_refl eq_refl eq_refl Hkeys) as (Hr & _ & Htr & _).
  split; [exact Hr|exact Htr].
Defined.

Lemma main_returns_after_a_skip_or_a_load_witness :
  (main (H := Demo.services) (Demo.start "people")).1 = Ok tt
  /\ forall k, k ∈ required_keys ->
       is_Some (environ (Demo.start "people") !! k).
Proof.
  assert ((main (H := Demo.services) (Demo.start "people")).1 = Ok tt) as Hok
    by (vm_compute; reflexivity).
  split; [exact Hok|].
  exact (proj1 (main_returns_after_a_skip_or_a_load (H := Demo.services)
                  (Demo.start "people") Hok)).
Defined.

Lemma empty_sheet_never_reaches_the_database_witness :
  exists evs,
    main (H := Demo.services) (Demo.start "blank")
    = (Ok tt,
       {| environ := Demo.environment "blank";
          frames := [{| df_columns := []; df_values := [] |}];
          tables := ∅;
          trace := evs |})
    /\ existsb is_db_call evs = false.
Proof.
  destruct (empty_sheet_never_reaches_the_database (H := Demo.services)
              (Demo.start "blank") "sheet-1" "blank" "{}"
              "etl" "secret" "db" "5432" "warehouse" "people"
              "{}" "{}"
              {[ "people" := Demo.people; "blank" := Demo.header_only ]}
              Demo.header_only Demo.warehouse
              eq_refl eq_refl eq_refl eq_refl eq_refl eq_refl eq_refl eq_refl
              eq_refl eq_refl eq_refl eq_refl eq_refl
              (Forall_nil_2 _) eq_refl)
    as (evs & Hrun & Hdb & _).
  exists evs. split; [exact Hrun|exact Hdb].
Defined.

Lemma bad_database_url_is_found_after_the_fetch_witness :
  create_engine (Services := Faulty.services)
    (build_pg_url "etl" "my secret" "db" "5432" "warehouse") = None
  /\ (main (H := Faulty.services) Faulty.start).1 = Raise ArgumentError
  /\ length (frames (main (H := Faulty.services) Faulty.start).2) = 1%nat.
Proof.
  split; [reflexivity|].
  destruct (bad_database_url_is_found_after_the_fetch (H := Faulty.services)
              Faulty.start "sheet-1" "people" "{key}"
              "etl" "my secret" "db" "5432" "warehouse" "people"
              "{key}" "{key}" {[ "people" := Demo.people ]} Demo.people
              eq_refl eq_refl eq_refl eq_refl eq_refl eq_refl eq_refl eq_refl
              eq_refl eq_refl eq_refl eq_refl eq_refl eq_refl)
    as (evs & Hrun & _ & _).
  rewrite Hrun. split; reflexivity.
Defined.

End demo_more.
